(** * CoDSPy: the three-stage pipeline of [v1_CoT_CodeLlama.py] and [v3_ReAct.py]

    Both files build the same application: a [CodeForge] object that owns
    three DSPy modules (analyzer, optimizer, test generator), a [process]
    method that runs them one after the other, and a Gradio click handler
    [process_code] that validates the text box and calls [process].

    The language model, the DSPy predictors and Gradio are external.  They
    are taken here as an abstract runtime: a predictor call either returns a
    prediction (a store of named text fields) or raises, and it may change
    the state of the model server.  Everything the two files themselves
    write (the try/except blocks, the dict literals, the subscripts, the
    validation) is embedded as it stands. *)

From Stdlib Require Import QArith_base.
From stdpp Require Import gmap strings list.

(** ** Python values used by the program *)

(** A Python [str] is a Rocq [string]: each character stands for the code
    point of the same number, so the strings of the model are the Python
    strings over the first 256 code points. *)

(** Instances of Python's [Exception] class: this is what the clause
    [except Exception as e] of the three stages matches.  [exc_type] is the
    class name and [exc_msg] the text that [str(e)] returns.  Objects that
    are not instances of [Exception] (the interpreter's [KeyboardInterrupt]
    and [SystemExit]) are not failures of a model call and stay outside the
    model. *)
Record Exception := mkException { exc_type : string; exc_msg : string }.

Definition str (e : Exception) : string := exc_msg e.

Definition KeyError (key : string) : Exception :=
  mkException "KeyError" ("'" +:+ key +:+ "'").

Definition AttributeError (name : string) : Exception :=
  mkException "AttributeError"
    ("'Prediction' object has no attribute '" +:+ name +:+ "'").

(** [gr.Error(msg)], the exception Gradio shows to the user as an error
    dialog. *)
Definition gr_Error (msg : string) : Exception := mkException "gradio.Error" msg.

(** A [Dict[str, str]]. *)
Abbreviation dict := (gmap string string) (only parsing).

(** A [dspy.Prediction]: its store of output fields. *)
Abbreviation Prediction := (gmap string string) (only parsing).

(** Keyword arguments of a predictor call, in the order they are written. *)
Abbreviation kwargs := (list (string * string)) (only parsing).

(** ** The DSPy runtime *)

(** [dspy.Tool(name=..., func=...)]. *)
Record Tool := mkTool { tool_name : string; tool_func : string → string }.

(** The two predictor modules the files construct, with their signature
    strings. *)
Inductive Predictor :=
| ChainOfThought (signature : string)
| ReAct (signature : string) (tools : list Tool).

(** [dspy.OllamaLocal(model=..., device=..., temperature=...)].  The
    temperature literal [0.2] is kept as the fraction it denotes. *)
Record OllamaLocal := mkOllamaLocal {
  model : string;
  device : string;
  temperature : Q
}.

(** The external collaborator: what a predictor call does, given the
    configured language model, the predictor, its keyword arguments and the
    current state of the model server.  It either raises an [Exception] or
    returns a prediction; in both cases the server may have moved on. *)
Class Runtime := {
  LMState : Type;
  lm_run : option OllamaLocal → Predictor → kwargs → LMState →
           (Exception + Prediction) * LMState
}.

Section Monad.
Context `{RT : Runtime}.

(** The process state the program can touch: the language model installed
    by [dspy.configure], the state of the model server, and (as a record
    of what happened) the predictor calls made so far, oldest first. *)
Record World := mkWorld {
  settings_lm : option OllamaLocal;
  lm_state : LMState;
  calls : list (Predictor * kwargs)
}.

(** A Python computation: it runs in a world, and either returns a value
    or raises. *)
Definition Py (A : Type) : Type := World → (Exception + A) * World.

Definition ret {A} (a : A) : Py A := λ w, (inr a, w).

Definition raise {A} (e : Exception) : Py A := λ w, (inl e, w).

Definition bind {A B} (m : Py A) (k : A → Py B) : Py B :=
  λ w, match m w with
       | (inr a, w') => k a w'
       | (inl e, w') => (inl e, w')
       end.

(** [try: body except Exception as e: handler e].  What the body did to the
    world before it raised stays done. *)
Definition try_except {A} (body : Py A) (handler : Exception → Py A) : Py A :=
  λ w, match body w with
       | (inr a, w') => (inr a, w')
       | (inl e, w') => handler e w'
       end.

(** [d[key]] on a dict. *)
Definition getitem (d : dict) (key : string) : Py string :=
  match d !! key with
  | Some v => ret v
  | None => raise (KeyError key)
  end.

(** [prediction.name] on a prediction. *)
Definition getattr (p : Prediction) (name : string) : Py string :=
  match p !! name with
  | Some v => ret v
  | None => raise (AttributeError name)
  end.

(** Calling a predictor module with keyword arguments. *)
Definition call (p : Predictor) (kw : kwargs) : Py Prediction :=
  λ w, let '(r, s) := lm_run (settings_lm w) p kw (lm_state w) in
       (r, mkWorld (settings_lm w) s (calls w ++ [(p, kw)])).

(** [dspy.configure(lm=...)]. *)
Definition configure (lm : OllamaLocal) : Py unit :=
  λ w, (inr tt, mkWorld (Some lm) (lm_state w) (calls w)).
End Monad.

Arguments World {RT}.
Arguments Py {RT} A.

#[export] Instance Py_ret `{RT : Runtime} : MRet Py := λ A, ret.
#[export] Instance Py_bind `{RT : Runtime} : MBind Py := λ A B k m, bind m k.

(** ** [str.strip] and truthiness *)

(** The characters [str.strip()] removes, that is those for which
  [str.isspace] holds, among the first 256 code points: tab, line feed,
  vertical tab, form feed, carriage return (9 to 13), the four separators
  28 to 31, the space (32), next line (133) and the no-break space (160). *)
Definition isspace (c : Ascii.ascii) : bool :=
let n := Ascii.N_of_ascii c in
((9 <=? n) && (n <=? 13) || (28 <=? n) && (n <=? 32) || (n =? 133) || (n =? 160))%N.

Fixpoint lstrip (s : string) : string :=
match s with
| EmptyString => EmptyString
| String c s' => if isspace c then lstrip s' else s
end.

Fixpoint rstrip (s : string) : string :=
match s with
| EmptyString => EmptyString
| String c s' =>
    match rstrip s' with
    | EmptyString => if isspace c then EmptyString else String c EmptyString
    | r => String c r
    end
end.

(** [s.strip()]: leading and trailing whitespace removed. *)
Definition strip (s : string) : string := rstrip (lstrip s).

(** Truth value of a [str]: only the empty string is false. *)
Definition truthy (s : string) : bool :=
match s with EmptyString => false | String _ _ => true end.

(** ** Variant 1: [v1_CoT_CodeLlama.py] *)

Module V1.

(** [class CodeAnalyzer(dspy.Module)] *)
Module CodeAnalyzer.
Record t := mk { analyze_code : Predictor }.

Definition init : t :=
  {| analyze_code := ChainOfThought "code -> issues, suggestions" |}.

Section Methods.
Context `{RT : Runtime}.

Definition analyze (self : t) (code : string) : Py dict :=
  try_except
    (prediction ← call (analyze_code self) [("code", code)];
     issues ← getattr prediction "issues";
     suggestions ← getattr prediction "suggestions";
     mret (<["suggestions" := suggestions]> (<["issues" := issues]> ∅)))
    (λ e,
     mret (<["suggestions" := "No suggestions available"]>
           (<["issues" := "Analysis error: " +:+ str e]> ∅))).
End Methods.
End CodeAnalyzer.

(** [class CodeOptimizer(dspy.Module)] *)
Module CodeOptimizer.
Record t := mk { optimize_code : Predictor }.

Definition init : t :=
  {| optimize_code := ChainOfThought "code, suggestions -> optimized_code" |}.

Section Methods.
Context `{RT : Runtime}.

Definition optimize (self : t) (code suggestions : string) : Py string :=
  try_except
    (prediction ← call (optimize_code self)
                    [("code", code); ("suggestions", suggestions)];
     getattr prediction "optimized_code")
    (λ e, mret ("Optimization error: " +:+ str e)).
End Methods.
End CodeOptimizer.

(** [class TestGenerator(dspy.Module)] *)
Module TestGenerator.
Record t := mk { generate_tests : Predictor }.

Definition init : t :=
  {| generate_tests := ChainOfThought "code -> test_cases, test_code" |}.

Section Methods.
Context `{RT : Runtime}.

Definition create_tests (self : t) (code : string) : Py dict :=
  try_except
    (prediction ← call (generate_tests self) [("code", code)];
     test_cases ← getattr prediction "test_cases";
     test_code ← getattr prediction "test_code";
     mret (<["test_code" := test_code]> (<["test_cases" := test_cases]> ∅)))
    (λ e,
     mret (<["test_code" := "Unable to generate test code"]>
           (<["test_cases" := "Test generation failed: " +:+ str e]> ∅))).
End Methods.
End TestGenerator.

(** [class CodeForge] *)
Module CodeForge.
Record t := mk {
  analyzer : CodeAnalyzer.t;
  optimizer : CodeOptimizer.t;
  tester : TestGenerator.t
}.

(** The language model that [__init__] hands to [dspy.configure]. *)
Definition lm : OllamaLocal :=
  {| model := "codellama:7b"; device := "cuda"; temperature := 2 # 10 |}.

Section Methods.
Context `{RT : Runtime}.

Definition init : Py t :=
  _ ← configure lm;
  mret {| analyzer := CodeAnalyzer.init;
          optimizer := CodeOptimizer.init;
          tester := TestGenerator.init |}.

Definition process (self : t) (code : string) : Py dict :=
  analysis ← CodeAnalyzer.analyze (analyzer self) code;
  suggestions ← getitem analysis "suggestions";
  optimized ← CodeOptimizer.optimize (optimizer self) code suggestions;
  tests ← TestGenerator.create_tests (tester self) code;
  issues ← getitem analysis "issues";
  suggestions' ← getitem analysis "suggestions";
  test_cases ← getitem tests "test_cases";
  test_code ← getitem tests "test_code";
  mret (<["test_code" := test_code]>
        (<["test_cases" := test_cases]>
         (<["optimized_code" := optimized]>
          (<["suggestions" := suggestions']>
           (<["issues" := issues]> ∅))))).
End Methods.
End CodeForge.

Section Interface.
Context `{RT : Runtime}.

(** The click handler defined inside [create_interface], closed over
    [forge]. *)
Definition process_code (forge : CodeForge.t) (code : string)
  : Py (string * string * string * string * string) :=
  if negb (truthy (strip code)) then
    raise (gr_Error "Please input some code to analyze!")
  else
    results ← CodeForge.process forge code;
    issues ← getitem results "issues";
    suggestions ← getitem results "suggestions";
    optimized_code ← getitem results "optimized_code";
    test_cases ← getitem results "test_cases";
    test_code ← getitem results "test_code";
    mret (issues, suggestions, optimized_code, test_cases, test_code).

(** [create_interface] builds the forge and the page; of the page, the
    model keeps the click handler. *)
Definition create_interface
  : Py (string → Py (string * string * string * string * string)) :=
  forge ← CodeForge.init;
  mret (process_code forge).
End Interface.

(** The arguments of [web_app.launch]. *)
Definition server_port : Z := 7860.
Definition server_name : string := "0.0.0.0".

End V1.

(** ** Variant 3: [v3_ReAct.py] *)

Module V3.

(** [class CodeAnalyzer(dspy.Module)] *)
Module CodeAnalyzer.
Record t := mk { tools : list Tool; analyze_code : Predictor }.

(** Tool for analyzing code issues *)
Definition _analyze_code (code : string) : string :=
  "Analyzing code for potential issues...".

(** Tool for generating suggestions *)
Definition _generate_suggestions (issues : string) : string :=
  "Generating optimization suggestions based on issues...".

Definition init : t :=
  let tools :=
    [ mkTool "code_analysis" _analyze_code;
      mkTool "suggestion_generator" _generate_suggestions ] in
  {| tools := tools;
     analyze_code := ReAct "code -> issues, suggestions" tools |}.

Section Methods.
Context `{RT : Runtime}.

Definition analyze (self : t) (code : string) : Py dict :=
  try_except
    (prediction ← call (analyze_code self) [("code", code)];
     issues ← getattr prediction "issues";
     suggestions ← getattr prediction "suggestions";
     mret (<["suggestions" := suggestions]> (<["issues" := issues]> ∅)))
    (λ e,
     mret (<["suggestions" := "No suggestions available"]>
           (<["issues" := "Analysis error: " +:+ str e]> ∅))).
End Methods.
End CodeAnalyzer.

(** [class CodeOptimizer(dspy.Module)] *)
Module CodeOptimizer.
Record t := mk { tools : list Tool; optimize_code : Predictor }.

(** Tool for code optimization *)
Definition _optimize_code (code : string) : string :=
  "Optimizing code structure...".

(** Tool for code refactoring *)
Definition _refactor_code (code : string) : string :=
  "Refactoring code for better readability...".

Definition init : t :=
  let tools :=
    [ mkTool "code_optimizer" _optimize_code;
      mkTool "code_refactor" _refactor_code ] in
  {| tools := tools;
     optimize_code := ReAct "code, suggestions -> optimized_code" tools |}.

Section Methods.
Context `{RT : Runtime}.

Definition optimize (self : t) (code suggestions : string) : Py string :=
  try_except
    (prediction ← call (optimize_code self)
                    [("code", code); ("suggestions", suggestions)];
     getattr prediction "optimized_code")
    (λ e, mret ("Optimization error: " +:+ str e)).
End Methods.
End CodeOptimizer.

(** [class TestGenerator(dspy.Module)] *)
Module TestGenerator.
Record t := mk { tools : list Tool; generate_tests : Predictor }.

(** Tool for generating test cases *)
Definition _generate_test_cases (code : string) : string :=
  "Generating test cases...".

(** Tool for writing test code *)
Definition _write_test_code (test_cases : string) : string :=
  "Writing test code implementation...".

Definition init : t :=
  let tools :=
    [ mkTool "test_case_generator" _generate_test_cases;
      mkTool "test_code_writer" _write_test_code ] in
  {| tools := tools;
     generate_tests := ReAct "code -> test_cases, test_code" tools |}.

Section Methods.
Context `{RT : Runtime}.

Definition create_tests (self : t) (code : string) : Py dict :=
  try_except
    (prediction ← call (generate_tests self) [("code", code)];
     test_cases ← getattr prediction "test_cases";
     test_code ← getattr prediction "test_code";
     mret (<["test_code" := test_code]> (<["test_cases" := test_cases]> ∅)))
    (λ e,
     mret (<["test_code" := "Unable to generate test code"]>
           (<["test_cases" := "Test generation failed: " +:+ str e]> ∅))).
End Methods.
End TestGenerator.

(** [class CodeForge] *)
Module CodeForge.
Record t := mk {
  analyzer : CodeAnalyzer.t;
  optimizer : CodeOptimizer.t;
  tester : TestGenerator.t
}.

(** The language model that [__init__] hands to [dspy.configure]. *)
Definition lm : OllamaLocal :=
  {| model := "llama3.2:3b"; device := "cuda"; temperature := 2 # 10 |}.

Section Methods.
Context `{RT : Runtime}.

Definition init : Py t :=
  _ ← configure lm;
  mret {| analyzer := CodeAnalyzer.init;
          optimizer := CodeOptimizer.init;
          tester := TestGenerator.init |}.

Definition process (self : t) (code : string) : Py dict :=
  analysis ← CodeAnalyzer.analyze (analyzer self) code;
  suggestions ← getitem analysis "suggestions";
  optimized ← CodeOptimizer.optimize (optimizer self) code suggestions;
  tests ← TestGenerator.create_tests (tester self) code;
  issues ← getitem analysis "issues";
  suggestions' ← getitem analysis "suggestions";
  test_cases ← getitem tests "test_cases";
  test_code ← getitem tests "test_code";
  mret (<["test_code" := test_code]>
        (<["test_cases" := test_cases]>
         (<["optimized_code" := optimized]>
          (<["suggestions" := suggestions']>
           (<["issues" := issues]> ∅))))).
End Methods.
End CodeForge.

Section Interface.
Context `{RT : Runtime}.

(** The click handler defined inside [create_interface], closed over
    [forge]. *)
Definition process_code (forge : CodeForge.t) (code : string)
  : Py (string * string * string * string * string) :=
  if negb (truthy (strip code)) then
    raise (gr_Error "Please input some code to analyze!")
  else
    results ← CodeForge.process forge code;
    issues ← getitem results "issues";
    suggestions ← getitem results "suggestions";
    optimized_code ← getitem results "optimized_code";
    test_cases ← getitem results "test_cases";
    test_code ← getitem results "test_code";
    mret (issues, suggestions, optimized_code, test_cases, test_code).

(** [create_interface] builds the forge and the page; of the page, the
    model keeps the click handler. *)
Definition create_interface
  : Py (string → Py (string * string * string * string * string)) :=
  forge ← CodeForge.init;
  mret (process_code forge).
End Interface.

(** The arguments of [web_app.launch]. *)
Definition server_port : Z := 7860.
Definition server_name : string := "0.0.0.0".

End V3.

(** ** A scripted runtime for examples

    The model server holds the list of answers it will give, one per
    predictor call, whatever the call; when the list is used up the call
    raises. *)

Definition script_run (lm : option OllamaLocal) (p : Predictor)
    (kw : list (string * string)) (s : list (Exception + gmap string string))
  : (Exception + gmap string string) * list (Exception + gmap string string) :=
  match s with
  | [] => (inl (mkException "ConnectionError" "connection refused"), [])
  | r :: s' => (r, s')
  end.

Definition scripted : Runtime :=
  {| LMState := list (Exception + gmap string string); lm_run := script_run |}.

Definition script_world (s : list (Exception + gmap string string)) : @World scripted :=
  @mkWorld scripted None s [].

Definition analysis_answer : gmap string string :=
  <["suggestions" := "use sum()"]> (<["issues" := "manual loop"]> ∅).

Definition optimizer_answer : gmap string string :=
  <["optimized_code" := "def total(xs): return sum(xs)"]> ∅.

Definition tests_answer : gmap string string :=
  <["test_code" := "assert total([1, 2]) == 3"]> (<["test_cases" := "two items"]> ∅).

Definition timeout_error : Exception := mkException "TimeoutError" "timed out".

(** ** Vocabulary of the statements *)

(** The dict literal [{"issues": i, "suggestions": s}] of [analyze]. *)
Definition analysis_dict (i s : string) : gmap string string :=
  <["suggestions" := s]> (<["issues" := i]> ∅).

(** The dict literal [{"test_cases": tc, "test_code": t}] of [create_tests]. *)
Definition tests_dict (tc t : string) : gmap string string :=
  <["test_code" := t]> (<["test_cases" := tc]> ∅).

(** The dict literal that [process] returns, the Result Record. *)
Definition result_record (i s o tc t : string) : gmap string string :=
  <["test_code" := t]>
    (<["test_cases" := tc]>
       (<["optimized_code" := o]>
          (<["suggestions" := s]>
             (<["issues" := i]> ∅)))).

(** The five field names of the Result Record. *)
Definition result_fields : gset string :=
  {[ "issues"; "suggestions"; "optimized_code"; "test_cases"; "test_code" ]}.

(** A computation returns normally from world [w]: it does not raise. *)
Definition returns `{RT : Runtime} {A} (m : Py A) (w : World) : Prop :=
  ∃ a w', m w = (inr a, w').

(** The input has no character other than whitespace (it may be empty). *)
Fixpoint blank (s : string) : bool :=
  match s with
  | EmptyString => true
  | String c s' => isspace c && blank s'
  end.

(** A computation returns normally with a dict in which every key of [keys]
    is bound. *)
Definition returns_with `{RT : Runtime} (keys : list string)
    (m : Py (gmap string string)) (w : World) : Prop :=
  ∃ d w', m w = (inr d, w') ∧ Forall (λ k, is_Some (d !! k)) keys.

(** The signature string a predictor was built from. *)
Definition signature_of (p : Predictor) : string :=
  match p with
  | ChainOfThought sig => sig
  | ReAct sig _ => sig
  end.

(** The [CodeForge] objects that the two constructors build. *)
Definition v1_forge : V1.CodeForge.t :=
  V1.CodeForge.mk V1.CodeAnalyzer.init V1.CodeOptimizer.init V1.TestGenerator.init.

Definition v3_forge : V3.CodeForge.t :=
  V3.CodeForge.mk V3.CodeAnalyzer.init V3.CodeOptimizer.init V3.TestGenerator.init.

(** A variant-3 object seen as a variant-1 object holding the same
    predictor: the list of tools, which no method reads, is dropped. *)
Definition as_v1_analyzer (a : V3.CodeAnalyzer.t) : V1.CodeAnalyzer.t :=
  V1.CodeAnalyzer.mk (V3.CodeAnalyzer.analyze_code a).

Definition as_v1_optimizer (o : V3.CodeOptimizer.t) : V1.CodeOptimizer.t :=
  V1.CodeOptimizer.mk (V3.CodeOptimizer.optimize_code o).

Definition as_v1_tester (t : V3.TestGenerator.t) : V1.TestGenerator.t :=
  V1.TestGenerator.mk (V3.TestGenerator.generate_tests t).

Definition as_v1_forge (f : V3.CodeForge.t) : V1.CodeForge.t :=
  V1.CodeForge.mk (as_v1_analyzer (V3.CodeForge.analyzer f))
                  (as_v1_optimizer (V3.CodeForge.optimizer f))
                  (as_v1_tester (V3.CodeForge.tester f)).

(** Every tool the variant-3 constructors attach to a reasoning loop. *)
Definition attached_tools : list Tool :=
  V3.CodeAnalyzer.tools V3.CodeAnalyzer.init
  ++ V3.CodeOptimizer.tools V3.CodeOptimizer.init
  ++ V3.TestGenerator.tools V3.TestGenerator.init.

(** A sample input and the worlds the examples start from: no language
    model configured yet, no call made, and a script of answers. *)
Definition sample_code : string := "def total(xs): return reduce(add, xs)".

Definition world_analyzer_fails : @World scripted :=
  script_world [inl timeout_error; inr optimizer_answer; inr tests_answer].

Definition world_optimizer_fails : @World scripted :=
  script_world [inr analysis_answer; inl timeout_error; inr tests_answer].

Definition world_tester_fails : @World scripted :=
  script_world [inr analysis_answer; inr optimizer_answer; inl timeout_error].

(** The value a returned dict binds to key [k]; nothing when the
    computation raised or the key is absent. *)
Definition field (k : string) (r : Exception + gmap string string) : option string :=
  match r with
  | inr d => d !! k
  | inl _ => None
  end.

(** Running [m] from [w] costs exactly one predictor call, that of [p] with
    [kw]: the call record grows by that entry, the model server is left
    where that single call left it, and the configured model is untouched. *)
Definition makes_one_call `{RT : Runtime} {A} (m : Py A) (p : Predictor)
    (kw : list (string * string)) (w : World) : Prop :=
  calls (m w).2 = calls w ++ [(p, kw)]
  ∧ lm_state (m w).2 = (lm_run (settings_lm w) p kw (lm_state w)).2
  ∧ settings_lm (m w).2 = settings_lm w.

(** More sample data: a world where every call answers, one where the model
    answers with the very texts the stages use as placeholders, a prediction
    that carries a field nobody asked for, and an input with whitespace
    around it. *)
Definition world_all_answer : @World scripted :=
  script_world [inr analysis_answer; inr optimizer_answer; inr tests_answer].

Definition lookalike_analysis : gmap string string :=
  <["suggestions" := "No suggestions available"]>
    (<["issues" := "Analysis error: timed out"]> ∅).

Definition lookalike_optimized : gmap string string :=
  <["optimized_code" := "Optimization error: timed out"]> ∅.


Definition padded_code : string := "  x = 1 ".

(** An input the validation rejects: a space, a tab and a line feed. *)
Definition blank_input : string :=
  String (Ascii.ascii_of_N 32)
    (String (Ascii.ascii_of_N 9) (String (Ascii.ascii_of_N 10) EmptyString)).

(** * Properties *)

(** ** The monad and the predictor call *)

Section CallFacts.
Context `{RT : Runtime}.

Lemma call_calls p kw (w : World) :
  calls (call p kw w).2 = calls w ++ [(p, kw)].
Proof. unfold call. by destruct (lm_run _ _ _ _). Qed.

Lemma call_settings p kw (w : World) :
  settings_lm (call p kw w).2 = settings_lm w.
Proof. unfold call. by destruct (lm_run _ _ _ _). Qed.

Lemma call_calls_eq p kw (w w' : World) r :
  call p kw w = (r, w') → calls w' = calls w ++ [(p, kw)].
Proof. intros H. by rewrite <- (call_calls p kw w), H. Qed.

Lemma getitem_Some (d : gmap string string) k v (w : World) :
  d !! k = Some v → getitem d k w = (inr v, w).
Proof. intros H. unfold getitem. by rewrite H. Qed.

Lemma bind_inr {A B} (m : Py A) (k : A → Py B) (w w' : World) a :
  m w = (inr a, w') → (m ≫= k) w = k a w'.
Proof. intros H. unfold mbind, Py_bind, bind. by rewrite H. Qed.

Lemma bind_inl {A B} (m : Py A) (k : A → Py B) (w w' : World) e :
  m w = (inl e, w') → (m ≫= k) w = (inl e, w').
Proof. intros H. unfold mbind, Py_bind, bind. by rewrite H. Qed.

Lemma try_inr {A} (m : Py A) h (w w' : World) a :
  m w = (inr a, w') → try_except m h w = (inr a, w').
Proof. intros H. unfold try_except. by rewrite H. Qed.

Lemma try_inl {A} (m : Py A) h (w w' : World) e :
  m w = (inl e, w') → try_except m h w = h e w'.
Proof. intros H. unfold try_except. by rewrite H. Qed.

End CallFacts.

(** ** [str.strip] *)

Lemma lstrip_blank s : blank s = true → lstrip s = EmptyString.
Proof.
  induction s as [|c s IH]; simpl; [done|].
  intros [Hc Hs]%andb_prop. rewrite Hc. by apply IH.
Qed.

Lemma strip_blank s : blank s = true → strip s = EmptyString.
Proof. intros H. unfold strip. by rewrite lstrip_blank. Qed.

Lemma rstrip_empty s : rstrip s = EmptyString → blank s = true.
Proof.
  induction s as [|c s IH]; simpl; [done|].
  destruct (rstrip s) eqn:E; [|done].
  destruct (isspace c); [|done]. intros _. by apply IH.
Qed.

Lemma lstrip_empty s : blank (lstrip s) = true → blank s = true.
Proof.
  induction s as [|c s IH]; simpl; [done|].
  destruct (isspace c) eqn:E; simpl; [done|]. by rewrite E.
Qed.

(** The validation test of [process_code] fires exactly on blank input. *)
Lemma strip_falsy_iff s : truthy (strip s) = false ↔ blank s = true.
Proof.
  split.
  - intros H. apply lstrip_empty, rstrip_empty.
    unfold strip in H. by destruct (rstrip (lstrip s)).
  - intros H. by rewrite strip_blank.
Qed.

(** ** The stages of variant 1 *)

(** Unfolds one stage method down to the predictor call. *)
Ltac open_stage :=
  unfold V1.CodeAnalyzer.analyze, V1.CodeOptimizer.optimize,
    V1.TestGenerator.create_tests, try_except, mbind, Py_bind, bind, mret,
    Py_ret, ret, getattr, raise.

Section StagesV1.
Context `{RT : Runtime}.
Implicit Types (w : World) (e : Exception) (p : gmap string string).

Lemma V1_analyze_raise (self : V1.CodeAnalyzer.t) code w w' e :
  call (V1.CodeAnalyzer.analyze_code self) [("code", code)] w = (inl e, w') →
  V1.CodeAnalyzer.analyze self code w =
    (inr (analysis_dict ("Analysis error: " +:+ str e) "No suggestions available"), w').
Proof. intros H. open_stage. by rewrite H. Qed.

Lemma V1_analyze_ok (self : V1.CodeAnalyzer.t) code w w' p i s :
  call (V1.CodeAnalyzer.analyze_code self) [("code", code)] w = (inr p, w') →
  p !! "issues" = Some i → p !! "suggestions" = Some s →
  V1.CodeAnalyzer.analyze self code w = (inr (analysis_dict i s), w').
Proof. intros H Hi Hs. open_stage. by rewrite H, Hi, Hs. Qed.

(** Whatever the predictor does, [analyze] returns a dict with both keys,
    in the world the predictor call left. *)
Lemma V1_analyze_shape (self : V1.CodeAnalyzer.t) code w :
  ∃ i s, V1.CodeAnalyzer.analyze self code w =
    (inr (analysis_dict i s),
     (call (V1.CodeAnalyzer.analyze_code self) [("code", code)] w).2).
Proof.
  open_stage.
  destruct (call _ _ w) as [[e|p] w'].
  - by eexists _, _.
  - destruct (p !! "issues"), (p !! "suggestions"); by eexists _, _.
Qed.

Lemma V1_optimize_raise (self : V1.CodeOptimizer.t) code suggestions w w' e :
  call (V1.CodeOptimizer.optimize_code self)
       [("code", code); ("suggestions", suggestions)] w = (inl e, w') →
  V1.CodeOptimizer.optimize self code suggestions w =
    (inr ("Optimization error: " +:+ str e), w').
Proof. intros H. open_stage. by rewrite H. Qed.

Lemma V1_optimize_ok (self : V1.CodeOptimizer.t) code suggestions w w' p o :
  call (V1.CodeOptimizer.optimize_code self)
       [("code", code); ("suggestions", suggestions)] w = (inr p, w') →
  p !! "optimized_code" = Some o →
  V1.CodeOptimizer.optimize self code suggestions w = (inr o, w').
Proof. intros H Ho. open_stage. by rewrite H, Ho. Qed.

Lemma V1_optimize_shape (self : V1.CodeOptimizer.t) code suggestions w :
  ∃ o, V1.CodeOptimizer.optimize self code suggestions w =
    (inr o,
     (call (V1.CodeOptimizer.optimize_code self)
           [("code", code); ("suggestions", suggestions)] w).2).
Proof.
  open_stage.
  destruct (call _ _ w) as [[e|p] w'].
  - by eexists.
  - destruct (p !! "optimized_code"); by eexists.
Qed.

Lemma V1_create_tests_raise (self : V1.TestGenerator.t) code w w' e :
  call (V1.TestGenerator.generate_tests self) [("code", code)] w = (inl e, w') →
  V1.TestGenerator.create_tests self code w =
    (inr (tests_dict ("Test generation failed: " +:+ str e)
                     "Unable to generate test code"), w').
Proof. intros H. open_stage. by rewrite H. Qed.

Lemma V1_create_tests_ok (self : V1.TestGenerator.t) code w w' p tc t :
  call (V1.TestGenerator.generate_tests self) [("code", code)] w = (inr p, w') →
  p !! "test_cases" = Some tc → p !! "test_code" = Some t →
  V1.TestGenerator.create_tests self code w = (inr (tests_dict tc t), w').
Proof. intros H Hc Ht. open_stage. by rewrite H, Hc, Ht. Qed.

Lemma V1_create_tests_shape (self : V1.TestGenerator.t) code w :
  ∃ tc t, V1.TestGenerator.create_tests self code w =
    (inr (tests_dict tc t),
     (call (V1.TestGenerator.generate_tests self) [("code", code)] w).2).
Proof.
  open_stage.
  destruct (call _ _ w) as [[e|p] w'].
  - by eexists _, _.
  - destruct (p !! "test_cases"), (p !! "test_code"); by eexists _, _.
Qed.

(** ** The orchestrator of variant 1 *)

(** [process] is the three stages in a row, each started in the world its
    predecessor left, followed by the assembly of the Result Record. *)
Lemma V1_process_compose (self : V1.CodeForge.t) code w i s w1 o w2 tc t w3 :
  V1.CodeAnalyzer.analyze (V1.CodeForge.analyzer self) code w =
    (inr (analysis_dict i s), w1) →
  V1.CodeOptimizer.optimize (V1.CodeForge.optimizer self) code s w1 = (inr o, w2) →
  V1.TestGenerator.create_tests (V1.CodeForge.tester self) code w2 =
    (inr (tests_dict tc t), w3) →
  V1.CodeForge.process self code w = (inr (result_record i s o tc t), w3).
Proof.
  intros Ha Ho Ht. unfold V1.CodeForge.process.
  erewrite bind_inr by exact Ha.
  erewrite bind_inr by (by apply getitem_Some).
  erewrite bind_inr by exact Ho.
  erewrite bind_inr by exact Ht.
  repeat (erewrite bind_inr by (by apply getitem_Some)).
  reflexivity.
Qed.

Lemma V1_process_shape (self : V1.CodeForge.t) code w :
  ∃ i s o tc t w1 w2 w3,
    V1.CodeAnalyzer.analyze (V1.CodeForge.analyzer self) code w =
      (inr (analysis_dict i s), w1)
    ∧ w1 = (call (V1.CodeAnalyzer.analyze_code (V1.CodeForge.analyzer self))
                 [("code", code)] w).2
    ∧ V1.CodeOptimizer.optimize (V1.CodeForge.optimizer self) code s w1 = (inr o, w2)
    ∧ w2 = (call (V1.CodeOptimizer.optimize_code (V1.CodeForge.optimizer self))
                 [("code", code); ("suggestions", s)] w1).2
    ∧ V1.TestGenerator.create_tests (V1.CodeForge.tester self) code w2 =
        (inr (tests_dict tc t), w3)
    ∧ w3 = (call (V1.TestGenerator.generate_tests (V1.CodeForge.tester self))
                 [("code", code)] w2).2
    ∧ V1.CodeForge.process self code w = (inr (result_record i s o tc t), w3).
Proof.
  destruct (V1_analyze_shape (V1.CodeForge.analyzer self) code w) as (i & s & Ha).
  set (w1 := (call _ _ w).2) in Ha.
  destruct (V1_optimize_shape (V1.CodeForge.optimizer self) code s w1) as (o & Ho).
  set (w2 := (call _ _ w1).2) in Ho.
  destruct (V1_create_tests_shape (V1.CodeForge.tester self) code w2) as (tc & t & Ht).
  set (w3 := (call _ _ w2).2) in Ht.
  exists i, s, o, tc, t, w1, w2, w3.
  repeat split; try done. by eapply V1_process_compose.
Qed.

End StagesV1.

(** ** The click handler of variant 1 *)

Section HandlerV1.
Context `{RT : Runtime}.

(** On input that is not blank the handler runs [process] and returns its
    five fields as a tuple; none of its subscripts can fail. *)
Lemma V1_process_code_runs (forge : V1.CodeForge.t) code (w : World) :
  blank code = false →
  ∃ i s o tc t w',
    V1.CodeForge.process forge code w = (inr (result_record i s o tc t), w')
    ∧ V1.process_code forge code w = (inr (i, s, o, tc, t), w').
Proof.
  intros Hb.
  destruct (V1_process_shape forge code w)
    as (i & s & o & tc & t & w1 & w2 & w3 & _ & _ & _ & _ & _ & _ & Hp).
  exists i, s, o, tc, t, w3. split; [exact Hp|].
  unfold V1.process_code.
  destruct (truthy (strip code)) eqn:E.
  - simpl. erewrite bind_inr by exact Hp.
    unfold result_record.
    repeat (erewrite bind_inr by (apply getitem_Some; by simplify_map_eq)).
    reflexivity.
  - apply strip_falsy_iff in E. congruence.
Qed.

End HandlerV1.

(** ** Variant 3 against variant 1

    The stage methods, [process] and [process_code] of the two files are the
    same text; they differ in the predictor their constructors install.  On
    objects holding the same predictors the methods therefore coincide. *)

Section Variants.
Context `{RT : Runtime}.

Lemma V3_analyze_eq (self : V3.CodeAnalyzer.t) code :
  V3.CodeAnalyzer.analyze self code = V1.CodeAnalyzer.analyze (as_v1_analyzer self) code.
Proof. reflexivity. Qed.

Lemma V3_optimize_eq (self : V3.CodeOptimizer.t) code suggestions :
  V3.CodeOptimizer.optimize self code suggestions =
  V1.CodeOptimizer.optimize (as_v1_optimizer self) code suggestions.
Proof. reflexivity. Qed.

Lemma V3_create_tests_eq (self : V3.TestGenerator.t) code :
  V3.TestGenerator.create_tests self code =
  V1.TestGenerator.create_tests (as_v1_tester self) code.
Proof. reflexivity. Qed.

Lemma V3_process_eq (self : V3.CodeForge.t) code :
  V3.CodeForge.process self code = V1.CodeForge.process (as_v1_forge self) code.
Proof. reflexivity. Qed.

Lemma V3_process_code_eq (forge : V3.CodeForge.t) code :
  V3.process_code forge code = V1.process_code (as_v1_forge forge) code.
Proof. reflexivity. Qed.

End Variants.

(** ** The Result Record *)

Lemma result_record_dom i s o tc t : dom (result_record i s o tc t) = result_fields.
Proof.
  unfold result_record, result_fields.
  rewrite !dom_insert_L, dom_empty_L. set_solver.
Qed.

Lemma result_record_lookup i s o tc t :
  result_record i s o tc t !! "issues" = Some i
  ∧ result_record i s o tc t !! "suggestions" = Some s
  ∧ result_record i s o tc t !! "optimized_code" = Some o
  ∧ result_record i s o tc t !! "test_cases" = Some tc
  ∧ result_record i s o tc t !! "test_code" = Some t.
Proof. unfold result_record. repeat split; by simplify_map_eq. Qed.

(** ** Runs on the scripted runtime *)

(** All three predictor calls answer. *)
Example v1_run_all_answer :
  (V1.process_code v1_forge sample_code
     (script_world [inr analysis_answer; inr optimizer_answer; inr tests_answer])).1
  = inr ("manual loop", "use sum()", "def total(xs): return sum(xs)",
         "two items", "assert total([1, 2]) == 3").
Proof. reflexivity. Qed.

(** The model server is down: every call raises. *)
Example v1_run_all_fail :
  (V1.CodeForge.process v1_forge sample_code (script_world [])).1
  = inr (result_record "Analysis error: connection refused"
           "No suggestions available"
           "Optimization error: connection refused"
           "Test generation failed: connection refused"
           "Unable to generate test code").
Proof. reflexivity. Qed.

(** The analyzer's prediction lacks [suggestions]: the attribute error is
    caught inside [analyze] like a failed call. *)
Example v1_run_missing_field :
  (V1.CodeAnalyzer.analyze V1.CodeAnalyzer.init sample_code
     (script_world [inr (<["issues" := "manual loop"]> ∅)])).1
  = inr (analysis_dict
           "Analysis error: 'Prediction' object has no attribute 'suggestions'"
           "No suggestions available").
Proof. reflexivity. Qed.

(** The page as built by [create_interface], then one click. *)
Example v3_run_interface :
  let '(r, w) :=
    (handler ← V3.create_interface; handler sample_code)
      (script_world [inr analysis_answer; inl timeout_error; inr tests_answer]) in
  r = inr ("manual loop", "use sum()", "Optimization error: timed out",
           "two items", "assert total([1, 2]) == 3")
  ∧ settings_lm w = Some V3.CodeForge.lm
  ∧ length (calls w) = 3.
Proof. repeat split. Qed.

Example strip_examples :
  strip blank_input = EmptyString
  ∧ strip " x = 1  " = "x = 1"
  ∧ truthy (strip " x = 1  ") = true.
Proof. repeat split. Qed.

(** * The claims *)

Section Claims.
Context `{RT : Runtime}.
Implicit Types (w : World) (e : Exception) (code : string).

(** C1. For every input string (non-empty or not) and whatever the three
    predictor calls do, succeed or raise, [CodeForge.process] returns a
    dict whose keys are exactly [issues], [suggestions], [optimized_code],
    [test_cases] and [test_code], each bound to a string.  Both variants. *)
Theorem C1_process_returns_the_five_fields
    (f1 : V1.CodeForge.t) (f3 : V3.CodeForge.t) code w :
  (∃ (d : gmap string string) w',
      V1.CodeForge.process f1 code w = (inr d, w') ∧ dom d = result_fields)
  ∧ (∃ (d : gmap string string) w',
      V3.CodeForge.process f3 code w = (inr d, w') ∧ dom d = result_fields).
Proof.
  split; [|rewrite V3_process_eq; generalize (as_v1_forge f3); intros f1'].
  - destruct (V1_process_shape f1 code w) as (i & s & o & tc & t & ? & ? & w3 & H).
    exists (result_record i s o tc t), w3. split; [apply H|apply result_record_dom].
  - destruct (V1_process_shape f1' code w) as (i & s & o & tc & t & ? & ? & w3 & H).
    exists (result_record i s o tc t), w3. split; [apply H|apply result_record_dom].
Qed.

(** C2. In each of the three stages of variant 1, when the predictor call
    raises an exception [e], the stage returns normally: [analyze] returns
    the dict with [issues = "Analysis error: " + str(e)] and the fixed
    suggestions text, [optimize] returns the string
    ["Optimization error: " + str(e)], and [create_tests] returns the dict
    with [test_cases = "Test generation failed: " + str(e)] and the fixed
    test-code text.  The world is the one the failed call left. *)
Theorem C2_stages_absorb_failures
    (a : V1.CodeAnalyzer.t) (o : V1.CodeOptimizer.t) (t : V1.TestGenerator.t)
    code suggestions e w w' :
  (call (V1.CodeAnalyzer.analyze_code a) [("code", code)] w = (inl e, w') →
   V1.CodeAnalyzer.analyze a code w =
     (inr (<["suggestions" := "No suggestions available"]>
           (<["issues" := "Analysis error: " +:+ str e]> ∅)), w'))
  ∧ (call (V1.CodeOptimizer.optimize_code o)
          [("code", code); ("suggestions", suggestions)] w = (inl e, w') →
     V1.CodeOptimizer.optimize o code suggestions w =
       (inr ("Optimization error: " +:+ str e), w'))
  ∧ (call (V1.TestGenerator.generate_tests t) [("code", code)] w = (inl e, w') →
     V1.TestGenerator.create_tests t code w =
       (inr (<["test_code" := "Unable to generate test code"]>
             (<["test_cases" := "Test generation failed: " +:+ str e]> ∅)), w')).
Proof.
  repeat split.
  - apply V1_analyze_raise.
  - apply V1_optimize_raise.
  - apply V1_create_tests_raise.
Qed.

(** C3. When the analyzer's predictor call raises, [process] still runs the
    optimizer: the next predictor call is the optimizer's, its [suggestions]
    argument is the analyzer's placeholder ["No suggestions available"],
    and the [optimized_code] of the Result Record is what [optimize]
    returned for that argument in the world the failed call left. *)
Theorem C3_optimizer_runs_on_placeholder (f : V1.CodeForge.t) code e w w1 :
  call (V1.CodeAnalyzer.analyze_code (V1.CodeForge.analyzer f)) [("code", code)] w
    = (inl e, w1) →
  ∃ o w2 (d : gmap string string) w3,
    V1.CodeOptimizer.optimize (V1.CodeForge.optimizer f) code
      "No suggestions available" w1 = (inr o, w2)
    ∧ V1.CodeForge.process f code w = (inr d, w3)
    ∧ d !! "optimized_code" = Some o
    ∧ d !! "suggestions" = Some "No suggestions available"
    ∧ d !! "issues" = Some ("Analysis error: " +:+ str e)
    ∧ calls w3 = calls w ++
        [ (V1.CodeAnalyzer.analyze_code (V1.CodeForge.analyzer f),
           [("code", code)]);
          (V1.CodeOptimizer.optimize_code (V1.CodeForge.optimizer f),
           [("code", code); ("suggestions", "No suggestions available")]);
          (V1.TestGenerator.generate_tests (V1.CodeForge.tester f),
           [("code", code)]) ].
Proof.
  intros Hcall.
  pose proof (V1_analyze_raise _ _ _ _ _ Hcall) as Ha.
  destruct (V1_optimize_shape (V1.CodeForge.optimizer f) code
              "No suggestions available" w1) as (o & Ho).
  set (w2 := (call _ _ w1).2) in Ho.
  destruct (V1_create_tests_shape (V1.CodeForge.tester f) code w2) as (tc & t & Ht).
  set (w3 := (call _ _ w2).2) in Ht.
  exists o, w2, (result_record ("Analysis error: " +:+ str e)
                   "No suggestions available" o tc t), w3.
  destruct (result_record_lookup ("Analysis error: " +:+ str e)
              "No suggestions available" o tc t) as (Hi & Hs & Hoc & _).
  repeat split; try done.
  - by eapply V1_process_compose.
  - subst w3 w2. rewrite !call_calls.
    replace (calls w1) with (calls (call (V1.CodeAnalyzer.analyze_code
      (V1.CodeForge.analyzer f)) [("code", code)] w).2) by by rewrite Hcall.
    rewrite call_calls, <- !app_assoc. done.
Qed.

(** C4. When the input is empty or made of whitespace only, the click
    handler [process_code] raises [gr.Error("Please input some code to
    analyze!")] and leaves the world as it found it: no predictor call has
    been made (the call record and the state of the model server are
    unchanged), so [process] has not run, and no tuple of results is
    returned.  Both variants, whatever the forge. *)
Theorem C4_blank_input_is_rejected
    (f1 : V1.CodeForge.t) (f3 : V3.CodeForge.t) code w :
  blank code = true →
  V1.process_code f1 code w =
    (inl (gr_Error "Please input some code to analyze!"), w)
  ∧ V3.process_code f3 code w =
    (inl (gr_Error "Please input some code to analyze!"), w).
Proof.
  intros Hb. rewrite V3_process_code_eq. unfold V1.process_code.
  by rewrite (strip_blank _ Hb).
Qed.

(** C5. [process] runs [analyze], then [optimize], then [create_tests], each
    in the world its predecessor left.  [optimize] is given the
    [suggestions] of the dict [analyze] returned; [create_tests] is given
    the source code alone.  The record of predictor calls grows by exactly
    three entries in that order: the analyzer's with [code], the optimizer's
    with [code] and those suggestions, the test generator's with [code]. *)
Theorem C5_stages_run_in_order (f : V1.CodeForge.t) code w :
  ∃ i s o tc t w1 w2 w3,
    V1.CodeAnalyzer.analyze (V1.CodeForge.analyzer f) code w =
      (inr (analysis_dict i s), w1)
    ∧ V1.CodeOptimizer.optimize (V1.CodeForge.optimizer f) code s w1 = (inr o, w2)
    ∧ V1.TestGenerator.create_tests (V1.CodeForge.tester f) code w2 =
        (inr (tests_dict tc t), w3)
    ∧ V1.CodeForge.process f code w = (inr (result_record i s o tc t), w3)
    ∧ calls w3 = calls w ++
        [ (V1.CodeAnalyzer.analyze_code (V1.CodeForge.analyzer f),
           [("code", code)]);
          (V1.CodeOptimizer.optimize_code (V1.CodeForge.optimizer f),
           [("code", code); ("suggestions", s)]);
          (V1.TestGenerator.generate_tests (V1.CodeForge.tester f),
           [("code", code)]) ].
Proof.
  destruct (V1_process_shape f code w)
    as (i & s & o & tc & t & w1 & w2 & w3 & Ha & E1 & Ho & E2 & Ht & E3 & Hp).
  exists i, s, o, tc, t, w1, w2, w3. repeat split; try done.
  rewrite E3, call_calls, E2, call_calls, E1, call_calls, <- !app_assoc. done.
Qed.

(** C6. When the analyzer's and the optimizer's predictor calls return their
    fields and the test generator's call raises [e], the stage outputs of
    the analyzer and the optimizer are the model's answers, and the
    Result Record carries them unchanged in [issues], [suggestions] and
    [optimized_code]; [test_cases] and [test_code] hold the test
    generator's two placeholder texts. *)
Theorem C6_test_failure_leaves_analysis_and_optimization
    (f : V1.CodeForge.t) code w w1 w2 w3 (pa po : gmap string string) i s o e :
  call (V1.CodeAnalyzer.analyze_code (V1.CodeForge.analyzer f)) [("code", code)] w
    = (inr pa, w1) →
  pa !! "issues" = Some i →
  pa !! "suggestions" = Some s →
  call (V1.CodeOptimizer.optimize_code (V1.CodeForge.optimizer f))
       [("code", code); ("suggestions", s)] w1 = (inr po, w2) →
  po !! "optimized_code" = Some o →
  call (V1.TestGenerator.generate_tests (V1.CodeForge.tester f)) [("code", code)] w2
    = (inl e, w3) →
  V1.CodeAnalyzer.analyze (V1.CodeForge.analyzer f) code w =
    (inr (analysis_dict i s), w1)
  ∧ V1.CodeOptimizer.optimize (V1.CodeForge.optimizer f) code s w1 = (inr o, w2)
  ∧ V1.CodeForge.process f code w =
      (inr (result_record i s o ("Test generation failed: " +:+ str e)
              "Unable to generate test code"), w3).
Proof.
  intros Hca Hi Hs Hco Ho Hct.
  pose proof (V1_analyze_ok _ _ _ _ _ _ _ Hca Hi Hs) as Ha.
  pose proof (V1_optimize_ok _ _ _ _ _ _ _ Hco Ho) as Hop.
  pose proof (V1_create_tests_raise _ _ _ _ _ Hct) as Ht.
  repeat split; try done. by eapply V1_process_compose.
Qed.

(** C7. [process] never raises, in either variant, for any input and
    whatever the predictor calls do (all of them may raise).  The reason is
    visible stage by stage: [analyze] always returns a dict that binds
    [suggestions] and [issues], [optimize] always returns, and
    [create_tests] always returns a dict that binds [test_cases] and
    [test_code], which are the only keys [process] subscripts. *)
Theorem C7_process_never_raises
    (f1 : V1.CodeForge.t) (f3 : V3.CodeForge.t) code w :
  (returns_with ["suggestions"; "issues"]
     (V1.CodeAnalyzer.analyze (V1.CodeForge.analyzer f1) code) w
   ∧ (∀ s, returns (V1.CodeOptimizer.optimize (V1.CodeForge.optimizer f1) code s) w)
   ∧ returns_with ["test_cases"; "test_code"]
       (V1.TestGenerator.create_tests (V1.CodeForge.tester f1) code) w
   ∧ returns (V1.CodeForge.process f1 code) w)
  ∧ (returns_with ["suggestions"; "issues"]
       (V3.CodeAnalyzer.analyze (V3.CodeForge.analyzer f3) code) w
     ∧ (∀ s, returns (V3.CodeOptimizer.optimize (V3.CodeForge.optimizer f3) code s) w)
     ∧ returns_with ["test_cases"; "test_code"]
         (V3.TestGenerator.create_tests (V3.CodeForge.tester f3) code) w
     ∧ returns (V3.CodeForge.process f3 code) w).
Proof.
  assert (∀ f : V1.CodeForge.t,
    returns_with ["suggestions"; "issues"]
      (V1.CodeAnalyzer.analyze (V1.CodeForge.analyzer f) code) w
    ∧ (∀ s, returns (V1.CodeOptimizer.optimize (V1.CodeForge.optimizer f) code s) w)
    ∧ returns_with ["test_cases"; "test_code"]
        (V1.TestGenerator.create_tests (V1.CodeForge.tester f) code) w
    ∧ returns (V1.CodeForge.process f code) w) as H.
  { intros f. repeat split.
    - destruct (V1_analyze_shape (V1.CodeForge.analyzer f) code w) as (i & s & Ha).
      eexists _, _. split; [exact Ha|].
      unfold analysis_dict. repeat constructor; eexists; by simplify_map_eq.
    - intros s.
      destruct (V1_optimize_shape (V1.CodeForge.optimizer f) code s w) as (o & Ho).
      by eexists _, _.
    - destruct (V1_create_tests_shape (V1.CodeForge.tester f) code w) as (tc & t & Ht).
      eexists _, _. split; [exact Ht|].
      unfold tests_dict. repeat constructor; eexists; by simplify_map_eq.
    - destruct (V1_process_shape f code w) as (i & s & o & tc & t & ? & ? & w3 & Hp).
      eexists _, _. apply Hp. }
  split; [apply H|apply (H (as_v1_forge f3))].
Qed.

(** C10. When the analyzer's and the test generator's predictor calls return
    their fields and the optimizer's call raises [e], the Result Record
    carries the analyzer's [issues] and [suggestions] and the test
    generator's [test_cases] and [test_code] unchanged; [optimized_code]
    alone holds the placeholder ["Optimization error: " + str(e)].  The
    [suggestions] of the record is the very string the optimizer's
    predictor was called with. *)
Theorem C10_optimizer_failure_leaves_the_other_fields
    (f : V1.CodeForge.t) code w w1 w2 w3 (pa pt : gmap string string)
    i s tc t e :
  call (V1.CodeAnalyzer.analyze_code (V1.CodeForge.analyzer f)) [("code", code)] w
    = (inr pa, w1) →
  pa !! "issues" = Some i →
  pa !! "suggestions" = Some s →
  call (V1.CodeOptimizer.optimize_code (V1.CodeForge.optimizer f))
       [("code", code); ("suggestions", s)] w1 = (inl e, w2) →
  call (V1.TestGenerator.generate_tests (V1.CodeForge.tester f)) [("code", code)] w2
    = (inr pt, w3) →
  pt !! "test_cases" = Some tc →
  pt !! "test_code" = Some t →
  V1.CodeAnalyzer.analyze (V1.CodeForge.analyzer f) code w =
    (inr (analysis_dict i s), w1)
  ∧ V1.TestGenerator.create_tests (V1.CodeForge.tester f) code w2 =
      (inr (tests_dict tc t), w3)
  ∧ V1.CodeForge.process f code w =
      (inr (result_record i s ("Optimization error: " +:+ str e) tc t), w3)
  ∧ calls w3 = calls w ++
      [ (V1.CodeAnalyzer.analyze_code (V1.CodeForge.analyzer f),
         [("code", code)]);
        (V1.CodeOptimizer.optimize_code (V1.CodeForge.optimizer f),
         [("code", code); ("suggestions", s)]);
        (V1.TestGenerator.generate_tests (V1.CodeForge.tester f),
         [("code", code)]) ].
Proof.
  intros Hca Hi Hs Hco Hct Htc Ht.
  pose proof (V1_analyze_ok _ _ _ _ _ _ _ Hca Hi Hs) as Ha.
  pose proof (V1_optimize_raise _ _ _ _ _ _ Hco) as Hop.
  pose proof (V1_create_tests_ok _ _ _ _ _ _ _ Hct Htc Ht) as Hts.
  repeat split; try done.
  - by eapply V1_process_compose.
  - rewrite (call_calls_eq _ _ _ _ _ Hct), (call_calls_eq _ _ _ _ _ Hco),
      (call_calls_eq _ _ _ _ _ Hca), <- !app_assoc. done.
Qed.

End Claims.

(** C8, as stated, fails on the configuration: started from the same world,
    the constructor of variant 1 installs the model [codellama:7b] and the
    constructor of variant 3 installs [llama3.2:3b]. *)
Lemma C8_configurations_differ :
  model <$> settings_lm (V1.CodeForge.init (script_world [])).2 = Some "codellama:7b"
  ∧ model <$> settings_lm (V3.CodeForge.init (script_world [])).2 = Some "llama3.2:3b"
  ∧ settings_lm (V1.CodeForge.init (script_world [])).2
    ≠ settings_lm (V3.CodeForge.init (script_world [])).2.
Proof. repeat split. intros H. vm_compute in H. discriminate H. Qed.

(** C8, amended.  The two variants differ in the predictor their stages hold
    (chain of thought against a reasoning loop with tools) and in the model
    name handed to [dspy.configure].  Everything else agrees: on objects
    holding the same predictors the three stage methods, [process] and
    [process_code] return the same result and leave the same world; the
    predictors are built from the same three signatures; the device, the
    temperature, the port and the host name are the same; and both
    constructors touch nothing but the configured model. *)
Theorem C8_variants_agree_except_predictor_and_model `{RT : Runtime} :
  (∀ (a : V3.CodeAnalyzer.t) code w,
      V3.CodeAnalyzer.analyze a code w =
      V1.CodeAnalyzer.analyze (as_v1_analyzer a) code w)
  ∧ (∀ (o : V3.CodeOptimizer.t) code suggestions w,
      V3.CodeOptimizer.optimize o code suggestions w =
      V1.CodeOptimizer.optimize (as_v1_optimizer o) code suggestions w)
  ∧ (∀ (t : V3.TestGenerator.t) code w,
      V3.TestGenerator.create_tests t code w =
      V1.TestGenerator.create_tests (as_v1_tester t) code w)
  ∧ (∀ (f : V3.CodeForge.t) code w,
      V3.CodeForge.process f code w = V1.CodeForge.process (as_v1_forge f) code w)
  ∧ (∀ (f : V3.CodeForge.t) code w,
      V3.process_code f code w = V1.process_code (as_v1_forge f) code w)
  ∧ (signature_of (V3.CodeAnalyzer.analyze_code V3.CodeAnalyzer.init)
       = signature_of (V1.CodeAnalyzer.analyze_code V1.CodeAnalyzer.init)
     ∧ signature_of (V3.CodeOptimizer.optimize_code V3.CodeOptimizer.init)
       = signature_of (V1.CodeOptimizer.optimize_code V1.CodeOptimizer.init)
     ∧ signature_of (V3.TestGenerator.generate_tests V3.TestGenerator.init)
       = signature_of (V1.TestGenerator.generate_tests V1.TestGenerator.init))
  ∧ (device V3.CodeForge.lm = device V1.CodeForge.lm
     ∧ temperature V3.CodeForge.lm = temperature V1.CodeForge.lm
     ∧ V3.server_port = V1.server_port
     ∧ V3.server_name = V1.server_name)
  ∧ (∀ w, V1.CodeForge.init w =
            (inr v1_forge, mkWorld (Some V1.CodeForge.lm) (lm_state w) (calls w))
          ∧ V3.CodeForge.init w =
            (inr v3_forge, mkWorld (Some V3.CodeForge.lm) (lm_state w) (calls w))).
Proof.
  split; [intros; by rewrite V3_analyze_eq|].
  split; [intros; by rewrite V3_optimize_eq|].
  split; [intros; by rewrite V3_create_tests_eq|].
  split; [intros; by rewrite V3_process_eq|].
  split; [intros; by rewrite V3_process_code_eq|].
  repeat split.
Qed.

(** C9. Each of the six tool functions of variant 3 returns the same string
    for any two arguments, and so does every tool that the constructors
    attach to a reasoning loop.  The functions are pure: they return a
    string literal and do nothing else. *)
Theorem C9_tools_ignore_their_argument (x y : string) :
  V3.CodeAnalyzer._analyze_code x = V3.CodeAnalyzer._analyze_code y
  ∧ V3.CodeAnalyzer._generate_suggestions x = V3.CodeAnalyzer._generate_suggestions y
  ∧ V3.CodeOptimizer._optimize_code x = V3.CodeOptimizer._optimize_code y
  ∧ V3.CodeOptimizer._refactor_code x = V3.CodeOptimizer._refactor_code y
  ∧ V3.TestGenerator._generate_test_cases x = V3.TestGenerator._generate_test_cases y
  ∧ V3.TestGenerator._write_test_code x = V3.TestGenerator._write_test_code y
  ∧ Forall (λ tl, tool_func tl x = tool_func tl y) attached_tools
  ∧ tool_name <$> attached_tools =
      [ "code_analysis"; "suggestion_generator"; "code_optimizer";
        "code_refactor"; "test_case_generator"; "test_code_writer" ].
Proof. repeat split. unfold attached_tools. simpl. repeat constructor. Qed.

(** ** The theorems at work on the scripted runtime *)

Lemma C2_witness :
  V1.CodeAnalyzer.analyze V1.CodeAnalyzer.init sample_code world_analyzer_fails =
    (inr (analysis_dict "Analysis error: timed out" "No suggestions available"),
     (call (ChainOfThought "code -> issues, suggestions")
           [("code", sample_code)] world_analyzer_fails).2)
  ∧ V1.CodeOptimizer.optimize V1.CodeOptimizer.init sample_code "use sum()"
      world_analyzer_fails =
    (inr "Optimization error: timed out",
     (call (ChainOfThought "code, suggestions -> optimized_code")
           [("code", sample_code); ("suggestions", "use sum()")]
           world_analyzer_fails).2)
  ∧ V1.TestGenerator.create_tests V1.TestGenerator.init sample_code
      world_analyzer_fails =
    (inr (tests_dict "Test generation failed: timed out"
            "Unable to generate test code"),
     (call (ChainOfThought "code -> test_cases, test_code")
           [("code", sample_code)] world_analyzer_fails).2).
Proof.
  split; [|split].
  - apply (C2_stages_absorb_failures (RT:=scripted) V1.CodeAnalyzer.init
             V1.CodeOptimizer.init V1.TestGenerator.init sample_code "use sum()"
             timeout_error world_analyzer_fails). reflexivity.
  - apply (C2_stages_absorb_failures (RT:=scripted) V1.CodeAnalyzer.init
             V1.CodeOptimizer.init V1.TestGenerator.init sample_code "use sum()"
             timeout_error world_analyzer_fails). reflexivity.
  - apply (C2_stages_absorb_failures (RT:=scripted) V1.CodeAnalyzer.init
             V1.CodeOptimizer.init V1.TestGenerator.init sample_code "use sum()"
             timeout_error world_analyzer_fails). reflexivity.
Defined.

Lemma C3_witness :
  (call (ChainOfThought "code -> issues, suggestions") [("code", sample_code)]
        world_analyzer_fails).1 = inl timeout_error
  ∧ ∃ o w2 (d : gmap string string) w3,
      V1.CodeOptimizer.optimize V1.CodeOptimizer.init sample_code
        "No suggestions available"
        (call (ChainOfThought "code -> issues, suggestions")
              [("code", sample_code)] world_analyzer_fails).2 = (inr o, w2)
      ∧ V1.CodeForge.process v1_forge sample_code world_analyzer_fails = (inr d, w3)
      ∧ d !! "optimized_code" = Some o
      ∧ d !! "suggestions" = Some "No suggestions available"
      ∧ d !! "issues" = Some "Analysis error: timed out"
      ∧ calls w3 =
          [ (ChainOfThought "code -> issues, suggestions", [("code", sample_code)]);
            (ChainOfThought "code, suggestions -> optimized_code",
             [("code", sample_code); ("suggestions", "No suggestions available")]);
            (ChainOfThought "code -> test_cases, test_code", [("code", sample_code)]) ].
Proof.
  split; [reflexivity|].
  apply (C3_optimizer_runs_on_placeholder (RT:=scripted) v1_forge sample_code
           timeout_error world_analyzer_fails).
  reflexivity.
Defined.

Lemma C4_witness :
  blank blank_input = true
  ∧ V1.process_code v1_forge blank_input world_tester_fails =
      (inl (gr_Error "Please input some code to analyze!"), world_tester_fails)
  ∧ V3.process_code v3_forge blank_input world_tester_fails =
      (inl (gr_Error "Please input some code to analyze!"), world_tester_fails)
  ∧ V1.process_code v1_forge EmptyString world_tester_fails =
      (inl (gr_Error "Please input some code to analyze!"), world_tester_fails).
Proof.
  split; [reflexivity|].
  split; [|split].
  - apply (C4_blank_input_is_rejected (RT:=scripted) v1_forge v3_forge blank_input).
    reflexivity.
  - apply (C4_blank_input_is_rejected (RT:=scripted) v1_forge v3_forge blank_input).
    reflexivity.
  - apply (C4_blank_input_is_rejected (RT:=scripted) v1_forge v3_forge EmptyString).
    reflexivity.
Defined.

Lemma C6_witness :
  (V1.CodeForge.process v1_forge sample_code world_tester_fails).1 =
    inr (result_record "manual loop" "use sum()" "def total(xs): return sum(xs)"
           "Test generation failed: timed out" "Unable to generate test code").
Proof.
  destruct (C6_test_failure_leaves_analysis_and_optimization (RT:=scripted)
              v1_forge sample_code world_tester_fails _ _ _
              analysis_answer optimizer_answer
              "manual loop" "use sum()" "def total(xs): return sum(xs)"
              timeout_error eq_refl eq_refl eq_refl eq_refl eq_refl eq_refl)
    as (_ & _ & Hp).
  rewrite Hp. reflexivity.
Defined.

Lemma C10_witness :
  (V1.CodeForge.process v1_forge sample_code world_optimizer_fails).1 =
    inr (result_record "manual loop" "use sum()" "Optimization error: timed out"
           "two items" "assert total([1, 2]) == 3")
  ∧ calls (V1.CodeForge.process v1_forge sample_code world_optimizer_fails).2 =
      [ (ChainOfThought "code -> issues, suggestions", [("code", sample_code)]);
        (ChainOfThought "code, suggestions -> optimized_code",
         [("code", sample_code); ("suggestions", "use sum()")]);
        (ChainOfThought "code -> test_cases, test_code", [("code", sample_code)]) ].
Proof.
  destruct (C10_optimizer_failure_leaves_the_other_fields (RT:=scripted)
              v1_forge sample_code world_optimizer_fails _ _ _
              analysis_answer tests_answer
              "manual loop" "use sum()" "two items" "assert total([1, 2]) == 3"
              timeout_error eq_refl eq_refl eq_refl eq_refl eq_refl eq_refl eq_refl)
    as (_ & _ & Hp & Hc).
  rewrite Hp. split; [reflexivity|exact Hc].
Defined.

(** * Further properties of the two files *)

(** ** Support *)

Section MoreFacts.
Context `{RT : Runtime}.
Implicit Types (w : World) (e : Exception) (code : string).

Lemma call_lm_state p kw w :
  lm_state (call p kw w).2 = (lm_run (settings_lm w) p kw (lm_state w)).2.
Proof. unfold call. by destruct (lm_run _ _ _ _). Qed.

Lemma one_call_intro {A} (m : Py A) p kw w :
  (m w).2 = (call p kw w).2 → makes_one_call m p kw w.
Proof.
  intros H. unfold makes_one_call. rewrite H.
  by rewrite call_calls, call_lm_state, call_settings.
Qed.

Lemma V1_analyze_world (a : V1.CodeAnalyzer.t) code w :
  (V1.CodeAnalyzer.analyze a code w).2 =
  (call (V1.CodeAnalyzer.analyze_code a) [("code", code)] w).2.
Proof. destruct (V1_analyze_shape a code w) as (i & s & H). by rewrite H. Qed.

Lemma V1_optimize_world (o : V1.CodeOptimizer.t) code suggestions w :
  (V1.CodeOptimizer.optimize o code suggestions w).2 =
  (call (V1.CodeOptimizer.optimize_code o)
        [("code", code); ("suggestions", suggestions)] w).2.
Proof. destruct (V1_optimize_shape o code suggestions w) as (x & H). by rewrite H. Qed.

Lemma V1_create_tests_world (t : V1.TestGenerator.t) code w :
  (V1.TestGenerator.create_tests t code w).2 =
  (call (V1.TestGenerator.generate_tests t) [("code", code)] w).2.
Proof. destruct (V1_create_tests_shape t code w) as (tc & x & H). by rewrite H. Qed.

Lemma analysis_dict_dom i s : dom (analysis_dict i s) = {[ "issues"; "suggestions" ]}.
Proof. unfold analysis_dict. rewrite !dom_insert_L, dom_empty_L. set_solver. Qed.

Lemma tests_dict_dom tc t : dom (tests_dict tc t) = {[ "test_cases"; "test_code" ]}.
Proof. unfold tests_dict. rewrite !dom_insert_L, dom_empty_L. set_solver. Qed.

(** What [analyze] returns is decided by the outcome of its predictor call. *)
Lemma V1_analyze_outcome (a : V1.CodeAnalyzer.t) code w w' :
  (call (V1.CodeAnalyzer.analyze_code a) [("code", code)] w).1 =
  (call (V1.CodeAnalyzer.analyze_code a) [("code", code)] w').1 →
  (V1.CodeAnalyzer.analyze a code w).1 = (V1.CodeAnalyzer.analyze a code w').1.
Proof.
  open_stage.
  destruct (call _ _ w) as [r w1], (call _ _ w') as [r' w1']. simpl.
  intros <-. destruct r as [e|p]; [done|].
  by destruct (p !! "issues"), (p !! "suggestions").
Qed.

(** [process] in full: the record, the three calls, the configured model. *)
Lemma V1_process_full (f : V1.CodeForge.t) code w :
  ∃ i s o tc t w',
    V1.CodeForge.process f code w = (inr (result_record i s o tc t), w')
    ∧ (V1.CodeAnalyzer.analyze (V1.CodeForge.analyzer f) code w).1 =
        inr (analysis_dict i s)
    ∧ calls w' = calls w ++
        [ (V1.CodeAnalyzer.analyze_code (V1.CodeForge.analyzer f),
           [("code", code)]);
          (V1.CodeOptimizer.optimize_code (V1.CodeForge.optimizer f),
           [("code", code); ("suggestions", s)]);
          (V1.TestGenerator.generate_tests (V1.CodeForge.tester f),
           [("code", code)]) ]
    ∧ settings_lm w' = settings_lm w.
Proof.
  destruct (V1_process_shape f code w)
    as (i & s & o & tc & t & w1 & w2 & w3 & Ha & E1 & Ho & E2 & Ht & E3 & Hp).
  exists i, s, o, tc, t, w3. repeat split; try done.
  - by rewrite Ha.
  - rewrite E3, call_calls, E2, call_calls, E1, call_calls, <- !app_assoc. done.
  - by rewrite E3, call_settings, E2, call_settings, E1, call_settings.
Qed.

Lemma V1_process_code_full (f : V1.CodeForge.t) code w :
  blank code = false →
  ∃ i s o tc t w',
    V1.process_code f code w = (inr (i, s, o, tc, t), w')
    ∧ V1.CodeForge.process f code w = (inr (result_record i s o tc t), w')
    ∧ calls w' = calls w ++
        [ (V1.CodeAnalyzer.analyze_code (V1.CodeForge.analyzer f),
           [("code", code)]);
          (V1.CodeOptimizer.optimize_code (V1.CodeForge.optimizer f),
           [("code", code); ("suggestions", s)]);
          (V1.TestGenerator.generate_tests (V1.CodeForge.tester f),
           [("code", code)]) ]
    ∧ settings_lm w' = settings_lm w.
Proof.
  intros Hb.
  destruct (V1_process_full f code w) as (i & s & o & tc & t & w' & Hp & _ & Hc & Hs).
  exists i, s, o, tc, t, w'. repeat split; try done.
  unfold V1.process_code.
  destruct (truthy (strip code)) eqn:E.
  - simpl. erewrite bind_inr by exact Hp.
    unfold result_record.
    repeat (erewrite bind_inr by (apply getitem_Some; by simplify_map_eq)).
    reflexivity.
  - apply strip_falsy_iff in E. congruence.
Qed.

End MoreFacts.

(** ** The stages *)

Section StageProperties.
Context `{RT : Runtime}.
Implicit Types (w : World) (e : Exception) (code : string).

(** X1. The three stages of variant 3 contain a failed predictor call like
    those of variant 1: when the reasoning loop raises [e], [analyze],
    [optimize] and [create_tests] return normally with the placeholder texts
    built from [str(e)], in the world the failed call left. *)
Theorem X1_v3_stages_absorb_failures
    (a : V3.CodeAnalyzer.t) (o : V3.CodeOptimizer.t) (t : V3.TestGenerator.t)
    code suggestions e w w' :
  (call (V3.CodeAnalyzer.analyze_code a) [("code", code)] w = (inl e, w') →
   V3.CodeAnalyzer.analyze a code w =
     (inr (<["suggestions" := "No suggestions available"]>
           (<["issues" := "Analysis error: " +:+ str e]> ∅)), w'))
  ∧ (call (V3.CodeOptimizer.optimize_code o)
          [("code", code); ("suggestions", suggestions)] w = (inl e, w') →
     V3.CodeOptimizer.optimize o code suggestions w =
       (inr ("Optimization error: " +:+ str e), w'))
  ∧ (call (V3.TestGenerator.generate_tests t) [("code", code)] w = (inl e, w') →
     V3.TestGenerator.create_tests t code w =
       (inr (<["test_code" := "Unable to generate test code"]>
             (<["test_cases" := "Test generation failed: " +:+ str e]> ∅)), w')).
Proof.
  split; [|split].
  - exact (V1_analyze_raise (as_v1_analyzer a) code w w' e).
  - exact (V1_optimize_raise (as_v1_optimizer o) code suggestions w w' e).
  - exact (V1_create_tests_raise (as_v1_tester t) code w w' e).
Qed.

(** X2. No stage retries and no stage calls twice: whatever the predictor
    does (answer, raise, or answer without the expected fields), each of
    the six stage methods makes exactly one predictor call, with the
    keyword arguments it was given, and leaves the configured model as it
    found it. *)
Theorem X2_each_stage_makes_one_call
    (a1 : V1.CodeAnalyzer.t) (o1 : V1.CodeOptimizer.t) (t1 : V1.TestGenerator.t)
    (a3 : V3.CodeAnalyzer.t) (o3 : V3.CodeOptimizer.t) (t3 : V3.TestGenerator.t)
    code suggestions w :
  makes_one_call (V1.CodeAnalyzer.analyze a1 code)
    (V1.CodeAnalyzer.analyze_code a1) [("code", code)] w
  ∧ makes_one_call (V1.CodeOptimizer.optimize o1 code suggestions)
      (V1.CodeOptimizer.optimize_code o1)
      [("code", code); ("suggestions", suggestions)] w
  ∧ makes_one_call (V1.TestGenerator.create_tests t1 code)
      (V1.TestGenerator.generate_tests t1) [("code", code)] w
  ∧ makes_one_call (V3.CodeAnalyzer.analyze a3 code)
      (V3.CodeAnalyzer.analyze_code a3) [("code", code)] w
  ∧ makes_one_call (V3.CodeOptimizer.optimize o3 code suggestions)
      (V3.CodeOptimizer.optimize_code o3)
      [("code", code); ("suggestions", suggestions)] w
  ∧ makes_one_call (V3.TestGenerator.create_tests t3 code)
      (V3.TestGenerator.generate_tests t3) [("code", code)] w.
Proof.
  split; [|split; [|split; [|split; [|split]]]]; apply one_call_intro.
  - apply V1_analyze_world.
  - apply V1_optimize_world.
  - apply V1_create_tests_world.
  - exact (V1_analyze_world (as_v1_analyzer a3) code w).
  - exact (V1_optimize_world (as_v1_optimizer o3) code suggestions w).
  - exact (V1_create_tests_world (as_v1_tester t3) code w).
Qed.


(** X4. The dict a stage returns has exactly the two keys of its dict
    literal, whatever the prediction holds: [analyze] returns the keys
    [issues] and [suggestions], [create_tests] the keys [test_cases] and
    [test_code].  Any further field of the prediction (the reasoning text
    of a chain of thought, say) is not passed on.  Both variants. *)
Theorem X4_stage_dicts_have_two_keys
    (a1 : V1.CodeAnalyzer.t) (t1 : V1.TestGenerator.t)
    (a3 : V3.CodeAnalyzer.t) (t3 : V3.TestGenerator.t) code w :
  (∃ (d : gmap string string) w',
      V1.CodeAnalyzer.analyze a1 code w = (inr d, w')
      ∧ dom d = {[ "issues"; "suggestions" ]})
  ∧ (∃ (d : gmap string string) w',
      V1.TestGenerator.create_tests t1 code w = (inr d, w')
      ∧ dom d = {[ "test_cases"; "test_code" ]})
  ∧ (∃ (d : gmap string string) w',
      V3.CodeAnalyzer.analyze a3 code w = (inr d, w')
      ∧ dom d = {[ "issues"; "suggestions" ]})
  ∧ (∃ (d : gmap string string) w',
      V3.TestGenerator.create_tests t3 code w = (inr d, w')
      ∧ dom d = {[ "test_cases"; "test_code" ]}).
Proof.
  split; [|split; [|split]].
  - destruct (V1_analyze_shape a1 code w) as (i & s & H).
    eexists _, _. split; [exact H|apply analysis_dict_dom].
  - destruct (V1_create_tests_shape t1 code w) as (tc & t & H).
    eexists _, _. split; [exact H|apply tests_dict_dom].
  - destruct (V1_analyze_shape (as_v1_analyzer a3) code w) as (i & s & H).
    eexists _, _. split; [exact H|apply analysis_dict_dom].
  - destruct (V1_create_tests_shape (as_v1_tester t3) code w) as (tc & t & H).
    eexists _, _. split; [exact H|apply tests_dict_dom].
Qed.

(** X5. A stage's output does not tell a failure from an answer.  If in one
    run the predictor call raises [e], and in another it answers with the
    very texts the stage would substitute for [e], then [analyze] returns
    the same dict in both runs, and [optimize] the same string: the
    failure leaves no mark outside the text. *)
Theorem X5_failure_looks_like_an_answer
    (a : V1.CodeAnalyzer.t) (o : V1.CodeOptimizer.t)
    code suggestions e (p : gmap string string) w w1 w' w1' :
  (call (V1.CodeAnalyzer.analyze_code a) [("code", code)] w = (inl e, w1) →
   call (V1.CodeAnalyzer.analyze_code a) [("code", code)] w' = (inr p, w1') →
   p !! "issues" = Some ("Analysis error: " +:+ str e) →
   p !! "suggestions" = Some "No suggestions available" →
   (V1.CodeAnalyzer.analyze a code w).1 = (V1.CodeAnalyzer.analyze a code w').1)
  ∧ (call (V1.CodeOptimizer.optimize_code o)
          [("code", code); ("suggestions", suggestions)] w = (inl e, w1) →
     call (V1.CodeOptimizer.optimize_code o)
          [("code", code); ("suggestions", suggestions)] w' = (inr p, w1') →
     p !! "optimized_code" = Some ("Optimization error: " +:+ str e) →
     (V1.CodeOptimizer.optimize o code suggestions w).1 =
     (V1.CodeOptimizer.optimize o code suggestions w').1).
Proof.
  split.
  - intros Hf Hs Hi Hsg.
    by rewrite (V1_analyze_raise _ _ _ _ _ Hf), (V1_analyze_ok _ _ _ _ _ _ _ Hs Hi Hsg).
  - intros Hf Hs Ho.
    by rewrite (V1_optimize_raise _ _ _ _ _ _ Hf), (V1_optimize_ok _ _ _ _ _ _ _ Hs Ho).
Qed.

End StageProperties.

(** ** The orchestrator *)

Section ProcessProperties.
Context `{RT : Runtime}.
Implicit Types (w : World) (e : Exception) (code : string).

Lemma V1_process_analysis_fields (f : V1.CodeForge.t) code w :
  field "issues" (V1.CodeForge.process f code w).1 =
    field "issues" (V1.CodeAnalyzer.analyze (V1.CodeForge.analyzer f) code w).1
  ∧ field "suggestions" (V1.CodeForge.process f code w).1 =
      field "suggestions" (V1.CodeAnalyzer.analyze (V1.CodeForge.analyzer f) code w).1.
Proof.
  destruct (V1_process_full f code w) as (i & s & o & tc & t & w' & Hp & Ha & _).
  rewrite Hp, Ha. unfold result_record, analysis_dict. simpl.
  split; by simplify_map_eq.
Qed.

Lemma V1_process_code_blank (f : V1.CodeForge.t) code w :
  blank code = true →
  V1.process_code f code w =
    (inl (gr_Error "Please input some code to analyze!"), w).
Proof. intros Hb. unfold V1.process_code. by rewrite (strip_blank _ Hb). Qed.

(** X6. When all three predictor calls of a run answer with their fields,
    the Result Record is made of the model's five answers, each under its
    own key, and the run ends in the world the third call left. *)
Theorem X6_all_answers_reach_the_record
    (f : V1.CodeForge.t) code w w1 w2 w3 (pa po pt : gmap string string)
    i s o tc t :
  call (V1.CodeAnalyzer.analyze_code (V1.CodeForge.analyzer f)) [("code", code)] w
    = (inr pa, w1) →
  pa !! "issues" = Some i →
  pa !! "suggestions" = Some s →
  call (V1.CodeOptimizer.optimize_code (V1.CodeForge.optimizer f))
       [("code", code); ("suggestions", s)] w1 = (inr po, w2) →
  po !! "optimized_code" = Some o →
  call (V1.TestGenerator.generate_tests (V1.CodeForge.tester f)) [("code", code)] w2
    = (inr pt, w3) →
  pt !! "test_cases" = Some tc →
  pt !! "test_code" = Some t →
  V1.CodeForge.process f code w = (inr (result_record i s o tc t), w3).
Proof.
  intros Hca Hi Hs Hco Ho Hct Htc Ht.
  eapply V1_process_compose.
  - by eapply V1_analyze_ok.
  - by eapply V1_optimize_ok.
  - by eapply V1_create_tests_ok.
Qed.

(** X7. When the analyzer's call raises [e] and the two later calls answer,
    the optimizer having been asked with the placeholder suggestions, the
    record carries the optimizer's and the test generator's answers
    unchanged; [issues] and [suggestions] hold the analyzer's two
    placeholder texts. *)
Theorem X7_analyzer_failure_leaves_the_other_fields
    (f : V1.CodeForge.t) code w w1 w2 w3 (po pt : gmap string string)
    o tc t e :
  call (V1.CodeAnalyzer.analyze_code (V1.CodeForge.analyzer f)) [("code", code)] w
    = (inl e, w1) →
  call (V1.CodeOptimizer.optimize_code (V1.CodeForge.optimizer f))
       [("code", code); ("suggestions", "No suggestions available")] w1
    = (inr po, w2) →
  po !! "optimized_code" = Some o →
  call (V1.TestGenerator.generate_tests (V1.CodeForge.tester f)) [("code", code)] w2
    = (inr pt, w3) →
  pt !! "test_cases" = Some tc →
  pt !! "test_code" = Some t →
  V1.CodeForge.process f code w =
    (inr (result_record ("Analysis error: " +:+ str e) "No suggestions available"
            o tc t), w3).
Proof.
  intros Hca Hco Ho Hct Htc Ht.
  eapply V1_process_compose.
  - by eapply V1_analyze_raise.
  - by eapply V1_optimize_ok.
  - by eapply V1_create_tests_ok.
Qed.

(** X8. When all three predictor calls raise, [process] still returns: the
    record holds the three error texts and the two fixed texts, and all
    three calls have been made, the optimizer's with the placeholder
    suggestions. *)
Theorem X8_all_failures_give_a_placeholder_record
    (f : V1.CodeForge.t) code w w1 w2 w3 e1 e2 e3 :
  call (V1.CodeAnalyzer.analyze_code (V1.CodeForge.analyzer f)) [("code", code)] w
    = (inl e1, w1) →
  call (V1.CodeOptimizer.optimize_code (V1.CodeForge.optimizer f))
       [("code", code); ("suggestions", "No suggestions available")] w1
    = (inl e2, w2) →
  call (V1.TestGenerator.generate_tests (V1.CodeForge.tester f)) [("code", code)] w2
    = (inl e3, w3) →
  V1.CodeForge.process f code w =
    (inr (result_record ("Analysis error: " +:+ str e1) "No suggestions available"
            ("Optimization error: " +:+ str e2)
            ("Test generation failed: " +:+ str e3)
            "Unable to generate test code"), w3).
Proof.
  intros Hca Hco Hct.
  eapply V1_process_compose.
  - by eapply V1_analyze_raise.
  - by eapply V1_optimize_raise.
  - by eapply V1_create_tests_raise.
Qed.

(** X9. The [issues] and [suggestions] of the Result Record depend on the
    outcome of the analyzer's predictor call and on nothing else: two runs
    on the same input in which that call has the same outcome agree on both
    fields, however the model server differs otherwise and whatever the
    optimizer and the test generator do. *)
Theorem X9_analysis_fields_depend_on_the_analyzer_call_only
    (f : V1.CodeForge.t) code w w' :
  (call (V1.CodeAnalyzer.analyze_code (V1.CodeForge.analyzer f)) [("code", code)] w).1
  = (call (V1.CodeAnalyzer.analyze_code (V1.CodeForge.analyzer f)) [("code", code)] w').1 →
  field "issues" (V1.CodeForge.process f code w).1 =
    field "issues" (V1.CodeForge.process f code w').1
  ∧ field "suggestions" (V1.CodeForge.process f code w).1 =
      field "suggestions" (V1.CodeForge.process f code w').1.
Proof.
  intros H.
  destruct (V1_process_analysis_fields f code w) as (Hi & Hs).
  destruct (V1_process_analysis_fields f code w') as (Hi' & Hs').
  rewrite Hi, Hs, Hi', Hs'.
  by rewrite (V1_analyze_outcome _ _ _ _ H).
Qed.

(** X10. [process] of variant 3 runs its stages in the same fixed order as
    variant 1: [analyze], then [optimize] on the suggestions [analyze]
    returned, then [create_tests] on the code alone, each in the world its
    predecessor left, and the call record grows by those three calls. *)
Theorem X10_v3_stages_run_in_order (f : V3.CodeForge.t) code w :
  ∃ i s o tc t w1 w2 w3,
    V3.CodeAnalyzer.analyze (V3.CodeForge.analyzer f) code w =
      (inr (analysis_dict i s), w1)
    ∧ V3.CodeOptimizer.optimize (V3.CodeForge.optimizer f) code s w1 = (inr o, w2)
    ∧ V3.TestGenerator.create_tests (V3.CodeForge.tester f) code w2 =
        (inr (tests_dict tc t), w3)
    ∧ V3.CodeForge.process f code w = (inr (result_record i s o tc t), w3)
    ∧ calls w3 = calls w ++
        [ (V3.CodeAnalyzer.analyze_code (V3.CodeForge.analyzer f),
           [("code", code)]);
          (V3.CodeOptimizer.optimize_code (V3.CodeForge.optimizer f),
           [("code", code); ("suggestions", s)]);
          (V3.TestGenerator.generate_tests (V3.CodeForge.tester f),
           [("code", code)]) ].
Proof.
  destruct (V1_process_shape (as_v1_forge f) code w)
    as (i & s & o & tc & t & w1 & w2 & w3 & Ha & E1 & Ho & E2 & Ht & E3 & Hp).
  exists i, s, o, tc, t, w1, w2, w3.
  split; [exact Ha|]. split; [exact Ho|]. split; [exact Ht|]. split; [exact Hp|].
  rewrite E3, call_calls, E2, call_calls, E1, call_calls, <- !app_assoc. done.
Qed.

(** X11. Neither [process] nor the click handler ever touches the configured
    language model: after any run, failed or not, rejected or not,
    [dspy.settings] holds the model it held before.  Both variants. *)
Theorem X11_runs_keep_the_configured_model
    (f1 : V1.CodeForge.t) (f3 : V3.CodeForge.t) code w :
  settings_lm (V1.CodeForge.process f1 code w).2 = settings_lm w
  ∧ settings_lm (V1.process_code f1 code w).2 = settings_lm w
  ∧ settings_lm (V3.CodeForge.process f3 code w).2 = settings_lm w
  ∧ settings_lm (V3.process_code f3 code w).2 = settings_lm w.
Proof.
  assert (∀ f : V1.CodeForge.t,
    settings_lm (V1.CodeForge.process f code w).2 = settings_lm w
    ∧ settings_lm (V1.process_code f code w).2 = settings_lm w) as H.
  { intros f. split.
    - destruct (V1_process_full f code w) as (i & s & o & tc & t & w' & Hp & _ & _ & Hs).
      by rewrite Hp.
    - destruct (blank code) eqn:Hb.
      + by rewrite V1_process_code_blank.
      + destruct (V1_process_code_full f code w Hb)
          as (i & s & o & tc & t & w' & Hp & _ & _ & Hs).
        by rewrite Hp. }
  destruct (H f1) as (H1 & H2). destruct (H (as_v1_forge f3)) as (H3 & H4).
  done.
Qed.

End ProcessProperties.

(** ** The click handler and the page *)

Section InterfaceProperties.
Context `{RT : Runtime}.
Implicit Types (w : World) (e : Exception) (code : string).

(** X12. On input that is not blank the click handler never raises: it
    returns the five fields of the Result Record that [process] built, as a
    tuple in the order of the output boxes (issues, suggestions, optimized
    code, test cases, test code), and ends in the world [process] left.
    Both variants. *)
Theorem X12_click_returns_the_five_fields
    (f1 : V1.CodeForge.t) (f3 : V3.CodeForge.t) code w :
  blank code = false →
  (∃ i s o tc t w',
      V1.CodeForge.process f1 code w = (inr (result_record i s o tc t), w')
      ∧ V1.process_code f1 code w = (inr (i, s, o, tc, t), w'))
  ∧ (∃ i s o tc t w',
      V3.CodeForge.process f3 code w = (inr (result_record i s o tc t), w')
      ∧ V3.process_code f3 code w = (inr (i, s, o, tc, t), w')).
Proof.
  intros Hb. split.
  - exact (V1_process_code_runs f1 code w Hb).
  - exact (V1_process_code_runs (as_v1_forge f3) code w Hb).
Qed.

(** X13. The validation error is the only exception the click handler can
    raise.  If the handler raises at all, then the input was blank, the
    exception is [gr.Error("Please input some code to analyze!")], and the
    world is as it was before the click.  Both variants. *)
Theorem X13_click_raises_only_the_validation_error
    (f1 : V1.CodeForge.t) (f3 : V3.CodeForge.t) code e w :
  ((V1.process_code f1 code w).1 = inl e →
   blank code = true
   ∧ e = gr_Error "Please input some code to analyze!"
   ∧ (V1.process_code f1 code w).2 = w)
  ∧ ((V3.process_code f3 code w).1 = inl e →
     blank code = true
     ∧ e = gr_Error "Please input some code to analyze!"
     ∧ (V3.process_code f3 code w).2 = w).
Proof.
  assert (∀ f : V1.CodeForge.t,
    (V1.process_code f code w).1 = inl e →
    blank code = true
    ∧ e = gr_Error "Please input some code to analyze!"
    ∧ (V1.process_code f code w).2 = w) as H.
  { intros f. destruct (blank code) eqn:Hb.
    - rewrite (V1_process_code_blank f code w Hb). simpl.
      intros [= <-]. done.
    - destruct (V1_process_code_full f code w Hb)
        as (i & s & o & tc & t & w' & Hp & _).
      rewrite Hp. simpl. discriminate. }
  split; [apply H|apply (H (as_v1_forge f3))].
Qed.

(** X14. The handler strips the input only to test it.  On input that is
    not blank, all three predictor calls receive the text exactly as it was
    typed, surrounding whitespace included, and the optimizer receives the
    suggestions that the handler returns. *)
Theorem X14_click_passes_the_input_unstripped (f : V1.CodeForge.t) code w :
  blank code = false →
  ∃ i s o tc t w',
    V1.process_code f code w = (inr (i, s, o, tc, t), w')
    ∧ calls w' = calls w ++
        [ (V1.CodeAnalyzer.analyze_code (V1.CodeForge.analyzer f),
           [("code", code)]);
          (V1.CodeOptimizer.optimize_code (V1.CodeForge.optimizer f),
           [("code", code); ("suggestions", s)]);
          (V1.TestGenerator.generate_tests (V1.CodeForge.tester f),
           [("code", code)]) ].
Proof.
  intros Hb.
  destruct (V1_process_code_full f code w Hb)
    as (i & s & o & tc & t & w' & Hp & _ & Hc & _).
  by exists i, s, o, tc, t, w'.
Qed.

(** X15. The page of variant 1, from construction to one click.  Building
    the page makes no predictor call and installs the model [codellama:7b].
    A click with input that is not blank then returns five texts and makes
    exactly three calls under that model: the chain-of-thought predictors
    of the signatures [code -> issues, suggestions],
    [code, suggestions -> optimized_code] and [code -> test_cases,
    test_code], in this order. *)
Theorem X15_v1_page_click code w :
  blank code = false →
  calls (V1.create_interface w).2 = calls w
  ∧ lm_state (V1.create_interface w).2 = lm_state w
  ∧ ∃ i s o tc t w',
      (handler ← V1.create_interface; handler code) w = (inr (i, s, o, tc, t), w')
      ∧ settings_lm w' =
          Some {| model := "codellama:7b"; device := "cuda"; temperature := 2 # 10 |}
      ∧ calls w' = calls w ++
          [ (ChainOfThought "code -> issues, suggestions", [("code", code)]);
            (ChainOfThought "code, suggestions -> optimized_code",
             [("code", code); ("suggestions", s)]);
            (ChainOfThought "code -> test_cases, test_code", [("code", code)]) ].
Proof.
  intros Hb. split; [done|]. split; [done|].
  destruct (V1_process_code_full v1_forge code
              (mkWorld (Some V1.CodeForge.lm) (lm_state w) (calls w)) Hb)
    as (i & s & o & tc & t & w' & Hp & _ & Hc & Hs).
  exists i, s, o, tc, t, w'.
  split; [exact Hp|]. split; [exact Hs|exact Hc].
Qed.

(** X16. The page of variant 3, from construction to one click.  Building
    the page makes no predictor call and installs the model [llama3.2:3b].
    A click with input that is not blank then returns five texts and makes
    exactly three calls under that model: the reasoning loops of the same
    three signatures, each with its own two tools. *)
Theorem X16_v3_page_click code w :
  blank code = false →
  calls (V3.create_interface w).2 = calls w
  ∧ lm_state (V3.create_interface w).2 = lm_state w
  ∧ ∃ i s o tc t w',
      (handler ← V3.create_interface; handler code) w = (inr (i, s, o, tc, t), w')
      ∧ settings_lm w' =
          Some {| model := "llama3.2:3b"; device := "cuda"; temperature := 2 # 10 |}
      ∧ calls w' = calls w ++
          [ (ReAct "code -> issues, suggestions"
               [ mkTool "code_analysis" V3.CodeAnalyzer._analyze_code;
                 mkTool "suggestion_generator" V3.CodeAnalyzer._generate_suggestions ],
             [("code", code)]);
            (ReAct "code, suggestions -> optimized_code"
               [ mkTool "code_optimizer" V3.CodeOptimizer._optimize_code;
                 mkTool "code_refactor" V3.CodeOptimizer._refactor_code ],
             [("code", code); ("suggestions", s)]);
            (ReAct "code -> test_cases, test_code"
               [ mkTool "test_case_generator" V3.TestGenerator._generate_test_cases;
                 mkTool "test_code_writer" V3.TestGenerator._write_test_code ],
             [("code", code)]) ].
Proof.
  intros Hb. split; [done|]. split; [done|].
  destruct (V1_process_code_full (as_v1_forge v3_forge) code
              (mkWorld (Some V3.CodeForge.lm) (lm_state w) (calls w)) Hb)
    as (i & s & o & tc & t & w' & Hp & _ & Hc & Hs).
  exists i, s, o, tc, t, w'.
  split; [exact Hp|]. split; [exact Hs|exact Hc].
Qed.

End InterfaceProperties.

(** ** The further properties at work on the scripted runtime *)

Lemma X1_witness :
  (V3.CodeAnalyzer.analyze V3.CodeAnalyzer.init sample_code world_analyzer_fails).1 =
    inr (analysis_dict "Analysis error: timed out" "No suggestions available")
  ∧ (V3.CodeOptimizer.optimize V3.CodeOptimizer.init sample_code "use sum()"
       world_analyzer_fails).1 = inr "Optimization error: timed out"
  ∧ (V3.TestGenerator.create_tests V3.TestGenerator.init sample_code
       world_analyzer_fails).1 =
    inr (tests_dict "Test generation failed: timed out" "Unable to generate test code").
Proof.
  split; [|split].
  - rewrite (proj1 (X1_v3_stages_absorb_failures (RT:=scripted)
      V3.CodeAnalyzer.init V3.CodeOptimizer.init V3.TestGenerator.init
      sample_code "use sum()" timeout_error world_analyzer_fails _) eq_refl).
    reflexivity.
  - rewrite (proj1 (proj2 (X1_v3_stages_absorb_failures (RT:=scripted)
      V3.CodeAnalyzer.init V3.CodeOptimizer.init V3.TestGenerator.init
      sample_code "use sum()" timeout_error world_analyzer_fails _)) eq_refl).
    reflexivity.
  - rewrite (proj2 (proj2 (X1_v3_stages_absorb_failures (RT:=scripted)
      V3.CodeAnalyzer.init V3.CodeOptimizer.init V3.TestGenerator.init
      sample_code "use sum()" timeout_error world_analyzer_fails _)) eq_refl).
    reflexivity.
Defined.


Lemma X5_witness :
  (V1.CodeAnalyzer.analyze V1.CodeAnalyzer.init sample_code
     (script_world [inl timeout_error])).1 =
  (V1.CodeAnalyzer.analyze V1.CodeAnalyzer.init sample_code
     (script_world [inr lookalike_analysis])).1
  ∧ (V1.CodeOptimizer.optimize V1.CodeOptimizer.init sample_code "use sum()"
       (script_world [inl timeout_error])).1 =
    (V1.CodeOptimizer.optimize V1.CodeOptimizer.init sample_code "use sum()"
       (script_world [inr lookalike_optimized])).1.
Proof.
  split.
  - exact (proj1 (X5_failure_looks_like_an_answer (RT:=scripted)
      V1.CodeAnalyzer.init V1.CodeOptimizer.init sample_code "use sum()"
      timeout_error lookalike_analysis
      (script_world [inl timeout_error]) _
      (script_world [inr lookalike_analysis]) _) eq_refl eq_refl eq_refl eq_refl).
  - exact (proj2 (X5_failure_looks_like_an_answer (RT:=scripted)
      V1.CodeAnalyzer.init V1.CodeOptimizer.init sample_code "use sum()"
      timeout_error lookalike_optimized
      (script_world [inl timeout_error]) _
      (script_world [inr lookalike_optimized]) _) eq_refl eq_refl eq_refl).
Defined.

Lemma X6_witness :
  (V1.CodeForge.process v1_forge sample_code world_all_answer).1 =
    inr (result_record "manual loop" "use sum()" "def total(xs): return sum(xs)"
           "two items" "assert total([1, 2]) == 3").
Proof.
  rewrite (X6_all_answers_reach_the_record (RT:=scripted)
             v1_forge sample_code world_all_answer _ _ _
             analysis_answer optimizer_answer tests_answer
             "manual loop" "use sum()" "def total(xs): return sum(xs)"
             "two items" "assert total([1, 2]) == 3"
             eq_refl eq_refl eq_refl eq_refl eq_refl eq_refl eq_refl eq_refl).
  reflexivity.
Defined.

Lemma X7_witness :
  (V1.CodeForge.process v1_forge sample_code world_analyzer_fails).1 =
    inr (result_record "Analysis error: timed out" "No suggestions available"
           "def total(xs): return sum(xs)" "two items" "assert total([1, 2]) == 3").
Proof.
  rewrite (X7_analyzer_failure_leaves_the_other_fields (RT:=scripted)
             v1_forge sample_code world_analyzer_fails _ _ _
             optimizer_answer tests_answer
             "def total(xs): return sum(xs)" "two items" "assert total([1, 2]) == 3"
             timeout_error
             eq_refl eq_refl eq_refl eq_refl eq_refl eq_refl).
  reflexivity.
Defined.

Lemma X8_witness :
  (V1.CodeForge.process v1_forge sample_code
     (script_world [inl timeout_error; inl timeout_error])).1 =
    inr (result_record "Analysis error: timed out" "No suggestions available"
           "Optimization error: timed out"
           "Test generation failed: connection refused"
           "Unable to generate test code").
Proof.
  rewrite (X8_all_failures_give_a_placeholder_record (RT:=scripted)
             v1_forge sample_code
             (script_world [inl timeout_error; inl timeout_error]) _ _ _
             timeout_error timeout_error
             (mkException "ConnectionError" "connection refused")
             eq_refl eq_refl eq_refl).
  reflexivity.
Defined.

Lemma X9_witness :
  field "issues" (V1.CodeForge.process v1_forge sample_code world_tester_fails).1 =
    field "issues" (V1.CodeForge.process v1_forge sample_code world_optimizer_fails).1
  ∧ field "suggestions"
      (V1.CodeForge.process v1_forge sample_code world_tester_fails).1 =
    field "suggestions"
      (V1.CodeForge.process v1_forge sample_code world_optimizer_fails).1.
Proof.
  exact (X9_analysis_fields_depend_on_the_analyzer_call_only (RT:=scripted)
           v1_forge sample_code world_tester_fails world_optimizer_fails eq_refl).
Defined.

Lemma X12_witness :
  blank padded_code = false
  ∧ (∃ i s o tc t w',
      V1.CodeForge.process v1_forge padded_code world_all_answer =
        (inr (result_record i s o tc t), w')
      ∧ V1.process_code v1_forge padded_code world_all_answer =
        (inr (i, s, o, tc, t), w'))
  ∧ (∃ i s o tc t w',
      V3.CodeForge.process v3_forge padded_code world_all_answer =
        (inr (result_record i s o tc t), w')
      ∧ V3.process_code v3_forge padded_code world_all_answer =
        (inr (i, s, o, tc, t), w')).
Proof.
  split; [reflexivity|].
  exact (X12_click_returns_the_five_fields (RT:=scripted)
           v1_forge v3_forge padded_code world_all_answer eq_refl).
Defined.

Lemma X13_witness :
  blank blank_input = true
  ∧ (V1.process_code v1_forge blank_input world_all_answer).2 = world_all_answer
  ∧ (V3.process_code v3_forge blank_input world_all_answer).2 = world_all_answer.
Proof.
  split; [|split].
  - exact (proj1 (proj1 (X13_click_raises_only_the_validation_error (RT:=scripted)
      v1_forge v3_forge blank_input
      (gr_Error "Please input some code to analyze!") world_all_answer) eq_refl)).
  - exact (proj2 (proj2 (proj1 (X13_click_raises_only_the_validation_error
      (RT:=scripted) v1_forge v3_forge blank_input
      (gr_Error "Please input some code to analyze!") world_all_answer) eq_refl))).
  - exact (proj2 (proj2 (proj2 (X13_click_raises_only_the_validation_error
      (RT:=scripted) v1_forge v3_forge blank_input
      (gr_Error "Please input some code to analyze!") world_all_answer) eq_refl))).
Defined.

Lemma X14_witness :
  strip padded_code ≠ padded_code
  ∧ ∃ i s o tc t w',
      V1.process_code v1_forge padded_code world_all_answer = (inr (i, s, o, tc, t), w')
      ∧ calls w' = calls world_all_answer ++
          [ (ChainOfThought "code -> issues, suggestions", [("code", padded_code)]);
            (ChainOfThought "code, suggestions -> optimized_code",
             [("code", padded_code); ("suggestions", s)]);
            (ChainOfThought "code -> test_cases, test_code", [("code", padded_code)]) ].
Proof.
  split; [discriminate|].
  exact (X14_click_passes_the_input_unstripped (RT:=scripted)
           v1_forge padded_code world_all_answer eq_refl).
Defined.

Lemma X15_witness :
  ∃ i s o tc t w',
    (handler ← V1.create_interface; handler padded_code) world_all_answer =
      (inr (i, s, o, tc, t), w')
    ∧ settings_lm w' =
        Some {| model := "codellama:7b"; device := "cuda"; temperature := 2 # 10 |}
    ∧ calls w' = calls world_all_answer ++
        [ (ChainOfThought "code -> issues, suggestions", [("code", padded_code)]);
          (ChainOfThought "code, suggestions -> optimized_code",
           [("code", padded_code); ("suggestions", s)]);
          (ChainOfThought "code -> test_cases, test_code", [("code", padded_code)]) ].
Proof.
  exact (proj2 (proj2 (X15_v1_page_click (RT:=scripted)
           padded_code world_all_answer eq_refl))).
Defined.

Lemma X16_witness :
  ∃ i s o tc t w',
    (handler ← V3.create_interface; handler padded_code) world_all_answer =
      (inr (i, s, o, tc, t), w')
    ∧ settings_lm w' =
        Some {| model := "llama3.2:3b"; device := "cuda"; temperature := 2 # 10 |}
    ∧ calls w' = calls world_all_answer ++
        [ (ReAct "code -> issues, suggestions"
             [ mkTool "code_analysis" V3.CodeAnalyzer._analyze_code;
               mkTool "suggestion_generator" V3.CodeAnalyzer._generate_suggestions ],
           [("code", padded_code)]);
          (ReAct "code, suggestions -> optimized_code"
             [ mkTool "code_optimizer" V3.CodeOptimizer._optimize_code;
               mkTool "code_refactor" V3.CodeOptimizer._refactor_code ],
           [("code", padded_code); ("suggestions", s)]);
          (ReAct "code -> test_cases, test_code"
             [ mkTool "test_case_generator" V3.TestGenerator._generate_test_cases;
               mkTool "test_code_writer" V3.TestGenerator._write_test_code ],
           [("code", padded_code)]) ].
Proof.
  exact (proj2 (proj2 (X16_v3_page_click (RT:=scripted)
           padded_code world_all_answer eq_refl))).
Defined.
